(** * go-rest: the resource-handler dispatch pipeline

    A shallow embedding of [server/handler.go] (package [server]: the
    per-verb request handlers and [sendResponse]) and of the [rest] package's
    [BaseResourceHandler] and [resourceHandlerProxy], with the properties the
    specification states about them.

    Go values are modelled as follows: [int] as [Z], [string] as [string],
    a nil-able interface or map as an [option], a function that may panic
    as an [outcome], a function with effects as a computation of the monad
    [M] over the store it works on, and a slice of pointers as a list of
    locations into a heap. *)

From Stdlib Require Import ZArith String List.
From stdpp Require Import base option list strings gmap.

(** ** Panics and effects *)

(** What a call of a Go function ends in: it returns, or it panics with a
    message that unwinds through every caller (nothing here recovers). *)
Inductive outcome (A : Type) : Type :=
| Return (a : A)
| Panic (msg : string).
Arguments Return {A} a.
Arguments Panic {A} msg.

(** A Go function that reads and writes a store [St] and may panic. *)
Definition M (St A : Type) : Type := St -> outcome (A * St).

#[global] Instance M_ret {St} : MRet (M St) :=
  fun A (a : A) (s : St) => Return (a, s).

#[global] Instance M_bind {St} : MBind (M St) :=
  fun A B (f : A -> M St B) (c : M St A) (s : St) =>
    match c s with
    | Return (a, s') => f a s'
    | Panic msg => Panic msg
    end.

(** [panic(msg)] as a computation. *)
Definition panic {St A} (msg : string) : M St A := fun _ => Panic msg.

(** ** Errors *)

(** The [error] values these files produce or pass on.  [NotImplemented] is
    the value of [rest.NotImplemented(reason)].

    Modelled from the spec: the constructor function [NotImplemented] is
    declared outside these files; the spec lists NotImplemented as an error
    kind of its own, distinguishable from the others. *)
Inductive error : Type :=
| SyntaxError (msg : string)
| UnmarshalTypeError (value : string)
| NotImplemented (reason : string)
| OtherError (msg : string).

Definition isNotImplemented (e : error) : bool :=
  match e with NotImplemented _ => true | _ => false end.

(** ** encoding/json *)

(** A JSON value.  A number keeps its literal. *)
#[warnings="-register-all"]
Inductive json : Type :=
| JNull
| JBool (b : bool)
| JNumber (literal : string)
| JString (s : string)
| JArray (items : list json)
| JObject (members : list (string * json)).

(** [type Payload map[string]interface{}]; [None] is the nil map. *)
Abbreviation Payload := (option (gmap string json)).

(** What [json.NewDecoder(body)] finds in a request body: no JSON value (the
    stream is empty, truncated or malformed; reading it gives the error), or
    a first JSON value. *)
Inductive Body : Type :=
| NoValue (e : error)
| NextValue (v : json).

(** [var data map[string]interface{}; err := decoder.Decode(&data)] as the
    pair [(data, err)].  encoding/json is Go's standard library; these are
    its documented rules for a map target: an object fills a fresh map (a
    later member replaces an earlier one of the same name), null sets the
    map to nil and is no error, any other value leaves the map as it was
    (nil) and gives an UnmarshalTypeError naming the value's kind. *)
Definition Decode (b : Body) : Payload * option error :=
  match b with
  | NoValue e => (None, Some e)
  | NextValue (JObject members) =>
      (Some (foldl (fun m kv => <[kv.1 := kv.2]> m) ∅ members), None)
  | NextValue JNull => (None, None)
  | NextValue (JBool _) => (None, Some (UnmarshalTypeError "bool"))
  | NextValue (JNumber _) => (None, Some (UnmarshalTypeError "number"))
  | NextValue (JString _) => (None, Some (UnmarshalTypeError "string"))
  | NextValue (JArray _) => (None, Some (UnmarshalTypeError "array"))
  end.

Definition isObject (v : json) : bool :=
  match v with JObject _ => true | _ => false end.

Definition isNull (v : json) : bool :=
  match v with JNull => true | _ => false end.

(** ** net/http status codes *)

Definition StatusOK : Z := 200.
Definition StatusCreated : Z := 201.
Definition StatusInternalServerError : Z := 500.
Definition StatusNotImplemented : Z := 501.

(** ** Package context *)

Module context.
Section Contexts.
Context {Resource : Type}.

(** What [SetResult] stores (an [interface{}]): nil, one resource, or the
    slice a list read returns. *)
Inductive Value : Type :=
| Nil
| One (r : Resource)
| Many (rs : list Resource).

(** A [Resource] returned by an operation, which may be nil, as the
    [interface{}] handed to [SetResult]. *)
Definition ofResource (r : option Resource) : Value :=
  match r with Some x => One x | None => Nil end.

(** Modelled from the spec: package [go-rest/server/context] is outside
    these files.  A RequestContext carries the request-derived inputs
    (version, limit, cursor, resource id, response format) and the response
    in progress (result, error, status, next-page cursor); every Set
    operation returns a new value with that one field replaced. *)
Record RequestContext : Type := mkContext {
  Version : string;
  Limit : Z;
  Cursor : string;
  ResourceId : string;
  ResponseFormat : string;
  Result : Value;
  Error : option error;
  Status : Z;
  NextCursor : option string
}.

Definition SetResult (ctx : RequestContext) (v : Value) : RequestContext :=
  mkContext (Version ctx) (Limit ctx) (Cursor ctx) (ResourceId ctx)
    (ResponseFormat ctx) v (Error ctx) (Status ctx) (NextCursor ctx).

Definition SetError (ctx : RequestContext) (err : option error) : RequestContext :=
  mkContext (Version ctx) (Limit ctx) (Cursor ctx) (ResourceId ctx)
    (ResponseFormat ctx) (Result ctx) err (Status ctx) (NextCursor ctx).

Definition SetStatus (ctx : RequestContext) (status : Z) : RequestContext :=
  mkContext (Version ctx) (Limit ctx) (Cursor ctx) (ResourceId ctx)
    (ResponseFormat ctx) (Result ctx) (Error ctx) status (NextCursor ctx).

(** The page token a list read returns becomes the next-page cursor. *)
Definition SetCursor (ctx : RequestContext) (cursor : string) : RequestContext :=
  mkContext (Version ctx) (Limit ctx) (Cursor ctx) (ResourceId ctx)
    (ResponseFormat ctx) (Result ctx) (Error ctx) (Status ctx) (Some cursor).

End Contexts.
Arguments Value : clear implicits.
Arguments RequestContext : clear implicits.
End context.

(** ** Package server: [server/handler.go] *)

Module server.
Import context.
Section Server.
Context {Resource St Serializer Request : Type}.

Abbreviation RequestContext := (context.RequestContext Resource).

(** The four shapes of operation the handlers are built from; each runs on
    the caller's store and returns Go's result tuple. *)
Definition CreateFunc : Type :=
  RequestContext -> Payload -> string -> M St (option Resource * option error).
Definition ReadListFunc : Type :=
  RequestContext -> Z -> string -> M St (list Resource * string * option error).
Definition ReadFunc : Type :=
  RequestContext -> string -> string -> M St (option Resource * option error).
Definition UpdateFunc : Type :=
  RequestContext -> string -> Payload -> string -> M St (option Resource * option error).

(** [type ResourceHandler interface]. *)
Record ResourceHandler : Type := {
  ResourceName : outcome string;
  CreateResource : CreateFunc;
  ReadResourceList : ReadListFunc;
  ReadResource : ReadFunc;
  UpdateResource : UpdateFunc;
  DeleteResource : ReadFunc;
  IsAuthorized : Request -> bool
}.

(** [type BaseResourceHandler struct{}] of package server: every stub but
    [IsAuthorized] panics. *)
Definition BaseResourceHandler : ResourceHandler := {|
  ResourceName := Panic "ResourceName not implemented";
  CreateResource := fun _ _ _ => panic "CreateResource not implemented";
  ReadResourceList := fun _ _ _ => panic "ReadResourceList not implemented";
  ReadResource := fun _ _ _ => panic "ReadResource not implemented";
  UpdateResource := fun _ _ _ _ => panic "UpdateResource not implemented";
  DeleteResource := fun _ _ _ => panic "DeleteResource not implemented";
  IsAuthorized := fun _ => true
|}.

(** Modelled from the spec: [newSuccessResponse] is declared outside these
    files; the success body holds the result and the next-page indicator. *)
Record successResponse : Type := newSuccessResponse {
  data : Value Resource;
  next : string
}.

(** One response written to the [http.ResponseWriter]: the serializer that
    wrote it, what it was given, and the status. *)
Inductive Write : Type :=
| ErrorResponse (s : Serializer) (err : error) (status : Z)
| SuccessResponse (s : Serializer) (body : successResponse) (status : Z).

(** An [http.ResponseWriter] is what has been written to it, in order. *)
Abbreviation ResponseWriter := (list Write).

Definition isErrorResponse (x : Write) : bool :=
  match x with ErrorResponse _ _ _ => true | SuccessResponse _ _ _ => false end.

Definition writeStatus (x : Write) : Z :=
  match x with ErrorResponse _ _ st => st | SuccessResponse _ _ st => st end.

Definition writeSerializer (x : Write) : Serializer :=
  match x with ErrorResponse s _ _ => s | SuccessResponse s _ _ => s end.

(** Modelled from the spec: the serializers are declared outside these
    files; each of their two operations writes one response. *)
Definition sendErrorResponse (serializer : Serializer) (w : ResponseWriter)
    (err : error) (status : Z) : ResponseWriter :=
  w ++ [ErrorResponse serializer err status].

Definition sendSuccessResponse (serializer : Serializer) (w : ResponseWriter)
    (r : successResponse) (status : Z) : ResponseWriter :=
  w ++ [SuccessResponse serializer r status].

(** What the handlers use and these files do not declare: the JSON
    serializer, how a context is built from a request, the context's
    [NextURL], and what the decoder finds in [r.Body]. *)
Class Externals : Type := {
  jsonSerializer : Serializer;
  NewContext : Request -> RequestContext;
  NextURL : RequestContext -> string * option error;
  RequestBody : Request -> Body
}.

(** [RestApi], embedded in [requestHandler].

    Modelled from the spec: [responseSerializer] is declared outside these
    files; the registered-format lookup gives the serializer registered for
    a format, or the unsupported-format error when there is none. *)
Record RestApi : Type := {
  responseSerializer : string -> Serializer + error
}.

(** [type requestHandler struct { RestApi }]. *)
Record requestHandler : Type := {
  embedded : RestApi
}.

Context `{Externals}.

(** Lines 175 to 185 of [sendResponse]: the serializer, status and error
    the response is written with, after the fallback for a format that has
    no serializer. *)
Definition sendResponse_resolve (h : requestHandler) (ctx : RequestContext)
    : Serializer * Z * option error :=
  let status := Status ctx in
  let requestError := Error ctx in
  match responseSerializer (embedded h) (ResponseFormat ctx) with
  | inr err => (jsonSerializer, StatusNotImplemented, Some err)
  | inl serializer => (serializer, status, requestError)
  end.

(** [func (h requestHandler) sendResponse(w, ctx)]. *)
Definition sendResponse (h : requestHandler) (w : ResponseWriter)
    (ctx : RequestContext) : ResponseWriter :=
  let result := Result ctx in
  let '(serializer, status, requestError) := sendResponse_resolve h ctx in
  match requestError with
  | Some requestError =>
      let status :=
        if (status <? 400)%Z then StatusInternalServerError else status in
      sendErrorResponse serializer w requestError status
  | None =>
      let '(nextURL, _) := NextURL ctx in
      sendSuccessResponse serializer w (newSuccessResponse result nextURL) status
  end.

(** The context [handleCreate]'s handler has built when it calls
    [sendResponse] (lines 75 to 89). *)
Definition handleCreate_ctx (createFunc : CreateFunc) (r : Request)
    : M St RequestContext :=
  let ctx := NewContext r in
  let '(data, err) := Decode (RequestBody r) in
  match err with
  | Some err =>
      let ctx := SetError ctx (Some err) in
      let ctx := SetStatus ctx StatusInternalServerError in
      mret ctx
  | None =>
      '(resource, err) ← createFunc ctx data (Version ctx);
      let ctx := SetResult ctx (ofResource resource) in
      let ctx := SetStatus ctx StatusCreated in
      let ctx := match err with
                 | Some _ => SetError ctx err
                 | None => ctx
                 end in
      mret ctx
  end.

(** [func (h requestHandler) handleCreate(createFunc) http.HandlerFunc]. *)
Definition handleCreate (h : requestHandler) (createFunc : CreateFunc)
    (w : ResponseWriter) (r : Request) : M St ResponseWriter :=
  ctx ← handleCreate_ctx createFunc r;
  mret (sendResponse h w ctx).

(** The context of [handleReadList]'s handler at [sendResponse]. *)
Definition handleReadList_ctx (readFunc : ReadListFunc) (r : Request)
    : M St RequestContext :=
  let ctx := NewContext r in
  '(resources, cursor, err) ← readFunc ctx (Limit ctx) (Version ctx);
  let ctx := SetResult ctx (Many resources) in
  let ctx := SetCursor ctx cursor in
  let ctx := SetError ctx err in
  let ctx := SetStatus ctx StatusOK in
  mret ctx.

(** [func (h requestHandler) handleReadList(readFunc) http.HandlerFunc]. *)
Definition handleReadList (h : requestHandler) (readFunc : ReadListFunc)
    (w : ResponseWriter) (r : Request) : M St ResponseWriter :=
  ctx ← handleReadList_ctx readFunc r;
  mret (sendResponse h w ctx).

(** The context of [handleRead]'s handler at [sendResponse]. *)
Definition handleRead_ctx (readFunc : ReadFunc) (r : Request)
    : M St RequestContext :=
  let ctx := NewContext r in
  '(resource, err) ← readFunc ctx (ResourceId ctx) (Version ctx);
  let ctx := SetResult ctx (ofResource resource) in
  let ctx := SetError ctx err in
  let ctx := SetStatus ctx StatusOK in
  mret ctx.

(** [func (h requestHandler) handleRead(readFunc) http.HandlerFunc]. *)
Definition handleRead (h : requestHandler) (readFunc : ReadFunc)
    (w : ResponseWriter) (r : Request) : M St ResponseWriter :=
  ctx ← handleRead_ctx readFunc r;
  mret (sendResponse h w ctx).

(** The context of [handleUpdate]'s handler at [sendResponse]. *)
Definition handleUpdate_ctx (updateFunc : UpdateFunc) (r : Request)
    : M St RequestContext :=
  let ctx := NewContext r in
  let '(data, err) := Decode (RequestBody r) in
  match err with
  | Some err =>
      let ctx := SetError ctx (Some err) in
      let ctx := SetStatus ctx StatusInternalServerError in
      mret ctx
  | None =>
      '(resource, err) ← updateFunc ctx (ResourceId ctx) data (Version ctx);
      let ctx := SetResult ctx (ofResource resource) in
      let ctx := SetError ctx err in
      let ctx := SetStatus ctx StatusOK in
      mret ctx
  end.

(** [func (h requestHandler) handleUpdate(updateFunc) http.HandlerFunc]. *)
Definition handleUpdate (h : requestHandler) (updateFunc : UpdateFunc)
    (w : ResponseWriter) (r : Request) : M St ResponseWriter :=
  ctx ← handleUpdate_ctx updateFunc r;
  mret (sendResponse h w ctx).

(** The context of [handleDelete]'s handler at [sendResponse]. *)
Definition handleDelete_ctx (deleteFunc : ReadFunc) (r : Request)
    : M St RequestContext :=
  let ctx := NewContext r in
  '(resource, err) ← deleteFunc ctx (ResourceId ctx) (Version ctx);
  let ctx := SetResult ctx (ofResource resource) in
  let ctx := SetError ctx err in
  let ctx := SetStatus ctx StatusOK in
  mret ctx.

(** [func (h requestHandler) handleDelete(deleteFunc) http.HandlerFunc]. *)
Definition handleDelete (h : requestHandler) (deleteFunc : ReadFunc)
    (w : ResponseWriter) (r : Request) : M St ResponseWriter :=
  ctx ← handleDelete_ctx deleteFunc r;
  mret (sendResponse h w ctx).

End Server.
Arguments ResourceHandler : clear implicits.
Arguments Write : clear implicits.
Arguments successResponse : clear implicits.
Arguments Externals : clear implicits.
Arguments RestApi : clear implicits.
Arguments requestHandler : clear implicits.
End server.

(** ** Package rest: [BaseResourceHandler] and [resourceHandlerProxy] *)

Module rest.
Section Rest.
Context {RequestContext Resource Request St GoType : Type}.

(** An [interface{}]: nil, or a dynamic type with a value of it. *)
Abbreviation interface := (option (GoType * Resource)).

(** [reflect.TypeOf(i)]: the dynamic type of [i], the nil Type for nil. *)
Definition TypeOf (i : interface) : option GoType := fst <$> i.

(** Modelled from the spec: [Rule] and [Rules] are declared outside these
    files.  A rule is bound to one resource type, [resourceType], which the
    proxy stamps on every rule of the slice it returns: the slice holds the
    rules by reference ([[]*Rule]), so a rule is a location of the heap.
    [Field] stands for what else a rule holds. *)
Record Rule : Type := {
  Field : string;
  resourceType : option GoType
}.

(** [type ResourceHandler interface] of package rest. *)
Record ResourceHandler : Type := {
  ResourceName : string;
  CreateURI : string;
  ReadURI : string;
  ReadListURI : string;
  UpdateURI : string;
  DeleteURI : string;
  EmptyResource : interface;
  CreateResource :
    RequestContext -> Payload -> string -> M St (option Resource * option error);
  ReadResourceList :
    RequestContext -> Z -> string -> string ->
    M St (list Resource * string * option error);
  ReadResource :
    RequestContext -> string -> string -> M St (option Resource * option error);
  UpdateResource :
    RequestContext -> string -> Payload -> string ->
    M St (option Resource * option error);
  DeleteResource :
    RequestContext -> string -> string -> M St (option Resource * option error);
  Authenticate : Request -> option error;
  Rules : list positive
}.

(** [type BaseResourceHandler struct{}] of package rest and its stubs. *)
Definition BaseResourceHandler : ResourceHandler := {|
  ResourceName := "";
  CreateURI := "";
  ReadURI := "";
  ReadListURI := "";
  UpdateURI := "";
  DeleteURI := "";
  EmptyResource := None;
  CreateResource := fun ctx data version =>
    mret (None, Some (NotImplemented "CreateResource is not implemented"));
  ReadResourceList := fun ctx limit cursor version =>
    mret ([], "", Some (NotImplemented "ReadResourceList not implemented"));
  ReadResource := fun ctx id version =>
    mret (None, Some (NotImplemented "ReadResource not implemented"));
  UpdateResource := fun ctx id data version =>
    mret (None, Some (NotImplemented "UpdateResource not implemented"));
  DeleteResource := fun ctx id version =>
    mret (None, Some (NotImplemented "DeleteResource not implemented"));
  Authenticate := fun r => None;
  Rules := []
|}.

End Rest.
Arguments Rule : clear implicits.
Arguments ResourceHandler : clear implicits.

(** [type resourceHandlerProxy struct { ResourceHandler }] and its methods,
    under their own names. *)
Module resourceHandlerProxy.
Section Proxy.
Context {RequestContext Resource Request St GoType : Type}.

Abbreviation Handler := (ResourceHandler RequestContext Resource Request St GoType).

(** The rules the handlers' slices point to. *)
Abbreviation heap := (gmap positive (Rule GoType)).

(** The proxy embeds the handler it wraps. *)
Record t : Type := wrap {
  wrapped : Handler
}.

(** The route-variable names, constants declared outside these files. *)
Variables versionKey resourceIDKey : string.

(** [func (r resourceHandlerProxy) ResourceName() string]. *)
Definition ResourceName (r : t) : outcome string :=
  let name := rest.ResourceName (wrapped r) in
  if String.eqb name "" then
    Panic "ResourceHandler must implement ResourceName()"
  else Return name.

(** [rule.resourceType = ty] through the pointer [rule]; a pointer to no
    rule is nil and the assignment panics. *)
Definition setResourceType (rule : positive) (ty : option GoType) : M heap unit :=
  fun hp =>
    match hp !! rule with
    | Some x => Return (tt, <[rule := {| Field := Field x; resourceType := ty |}]> hp)
    | None => Panic "invalid memory address or nil pointer dereference"
    end.

(** The loop of [Rules]: [for _, rule := range rules { ... }]. *)
Fixpoint Rules_range (r : t) (rules : list positive) : M heap unit :=
  match rules with
  | [] => mret tt
  | rule :: rules' =>
      _ ← setResourceType rule (TypeOf (EmptyResource (wrapped r)));
      Rules_range r rules'
  end.

(** [func (r resourceHandlerProxy) Rules() Rules]. *)
Definition Rules (r : t) : M heap (list positive) :=
  let rules := rest.Rules (wrapped r) in
  _ ← Rules_range r rules;
  mret rules.

(** [fmt.Sprintf("/api/v{%s:[^/]+}/%s", versionKey, name)]. *)
Definition pluralURI (name : string) : string :=
  "/api/v{" +:+ versionKey +:+ ":[^/]+}/" +:+ name.

(** [fmt.Sprintf("/api/v{%s:[^/]+}/%s/{%s}", versionKey, name, resourceIDKey)]. *)
Definition singularURI (name : string) : string :=
  "/api/v{" +:+ versionKey +:+ ":[^/]+}/" +:+ name +:+ "/{" +:+ resourceIDKey +:+ "}".

(** [func (r resourceHandlerProxy) CreateURI() string]. *)
Definition CreateURI (r : t) : outcome string :=
  let url := rest.CreateURI (wrapped r) in
  if String.eqb url "" then
    match ResourceName r with
    | Return name => Return (pluralURI name)
    | Panic msg => Panic msg
    end
  else Return url.

(** [func (r resourceHandlerProxy) ReadURI() string]. *)
Definition ReadURI (r : t) : outcome string :=
  let url := rest.ReadURI (wrapped r) in
  if String.eqb url "" then
    match ResourceName r with
    | Return name => Return (singularURI name)
    | Panic msg => Panic msg
    end
  else Return url.

(** [func (r resourceHandlerProxy) ReadListURI() string]. *)
Definition ReadListURI (r : t) : outcome string :=
  let url := rest.ReadListURI (wrapped r) in
  if String.eqb url "" then
    match ResourceName r with
    | Return name => Return (pluralURI name)
    | Panic msg => Panic msg
    end
  else Return url.

(** [func (r resourceHandlerProxy) UpdateURI() string]. *)
Definition UpdateURI (r : t) : outcome string :=
  let url := rest.UpdateURI (wrapped r) in
  if String.eqb url "" then
    match ResourceName r with
    | Return name => Return (singularURI name)
    | Panic msg => Panic msg
    end
  else Return url.

(** [func (r resourceHandlerProxy) DeleteURI() string]: the name is read
    from the wrapped handler, [r.ResourceHandler.ResourceName()], not
    through the proxy's own [ResourceName]. *)
Definition DeleteURI (r : t) : outcome string :=
  let url := rest.DeleteURI (wrapped r) in
  if String.eqb url "" then
    Return (singularURI (rest.ResourceName (wrapped r)))
  else Return url.

End Proxy.
Arguments t : clear implicits.
End resourceHandlerProxy.
End rest.

(** ** A small instance

    Collaborators to run the handlers with: requests that carry their body,
    route variables and format; [json] as the only registered format; and
    operations that count their calls in the store. *)

Module example.
Import context.

Record Request : Type := {
  body : Body;
  version : string;
  id : string;
  format : string
}.

#[global] Instance externals : server.Externals string string Request := {|
  server.jsonSerializer := "json";
  server.NewContext := fun r =>
    mkContext (version r) 0 "" (id r) (format r) Nil None StatusOK None;
  server.NextURL := fun _ => ("", None);
  server.RequestBody := body
|}.

Definition unsupported : error := OtherError "unsupported format".

Definition h : server.requestHandler string := {|
  server.embedded := {|
    server.responseSerializer := fun f =>
      if String.eqb f "json" then inl "json" else inr unsupported
  |}
|}.

(** A create operation that counts the call and fails. *)
Definition failingCreate : server.CreateFunc (Resource := string) (St := nat) :=
  fun _ _ _ calls => Return ((None, Some (OtherError "boom")), S calls).

(** A list read that counts the call and fails. *)
Definition failingReadList : server.ReadListFunc (Resource := string) (St := nat) :=
  fun _ _ _ calls => Return (([], "", Some (OtherError "boom")), S calls).

(** A create operation that counts the call and succeeds with nil. *)
Definition countingCreate : server.CreateFunc (Resource := string) (St := nat) :=
  fun _ _ _ calls => Return ((None, None), S calls).

(** An update operation that counts the call and succeeds with nil. *)
Definition countingUpdate : server.UpdateFunc (Resource := string) (St := nat) :=
  fun _ _ _ _ calls => Return ((None, None), S calls).

Definition post (b : Body) (fmt : string) : Request :=
  {| body := b; version := "1"; id := ""; format := fmt |}.

Definition boom : error := OtherError "boom".

(** The body [{"name":"foo"}]. *)
Definition object : Body := NextValue (JObject [("name", JString "foo")]).

(** A finished context with status 201 and an error, for format [json]. *)
Definition failed : RequestContext string :=
  mkContext "1" 0 "" "" "json" Nil (Some boom) StatusCreated None.

(** A finished context of a successful read, for format [xml]. *)
Definition readAsXml : RequestContext string :=
  mkContext "1" 0 "" "7" "xml" (One "widget") None StatusOK None.

(** An operation that must not be called. *)
Definition forbiddenCreate : server.CreateFunc (Resource := string) (St := nat) :=
  fun _ _ _ => panic "createFunc was called".

(** A read that counts the call and finds a widget. *)
Definition findingRead : server.ReadFunc (Resource := string) (St := nat) :=
  fun _ _ _ calls => Return ((Some "widget", None), S calls).


(** A [GET] of the widget [7]. *)
Definition get (fmt : string) : Request :=
  {| body := NoValue (SyntaxError "EOF"); version := "1"; id := "7"; format := fmt |}.

(** Handlers of package rest over trivial contexts, resources and requests,
    with Go types named by strings. *)
Abbreviation Handler := (rest.ResourceHandler unit unit unit unit string).

(** A handler that embeds the base handler and overrides nothing. *)
Definition unnamed : Handler := rest.BaseResourceHandler.

(** A handler with a name, its own read URI, and two rules for its
    resource type. *)
Definition widgets : Handler := {|
  rest.ResourceName := "widgets";
  rest.CreateURI := "";
  rest.ReadURI := "/widgets/{id}";
  rest.ReadListURI := "";
  rest.UpdateURI := "";
  rest.DeleteURI := "";
  rest.EmptyResource := Some ("Widget", tt);
  rest.CreateResource := rest.CreateResource unnamed;
  rest.ReadResourceList := rest.ReadResourceList unnamed;
  rest.ReadResource := rest.ReadResource unnamed;
  rest.UpdateResource := rest.UpdateResource unnamed;
  rest.DeleteResource := rest.DeleteResource unnamed;
  rest.Authenticate := rest.Authenticate unnamed;
  rest.Rules := [1; 2]%positive
|}.

(** The same handler without [EmptyResource]: the base stub's nil. *)
Definition tagless : Handler := {|
  rest.ResourceName := "widgets";
  rest.CreateURI := "";
  rest.ReadURI := "/widgets/{id}";
  rest.ReadListURI := "";
  rest.UpdateURI := "";
  rest.DeleteURI := "";
  rest.EmptyResource := rest.EmptyResource unnamed;
  rest.CreateResource := rest.CreateResource unnamed;
  rest.ReadResourceList := rest.ReadResourceList unnamed;
  rest.ReadResource := rest.ReadResource unnamed;
  rest.UpdateResource := rest.UpdateResource unnamed;
  rest.DeleteResource := rest.DeleteResource unnamed;
  rest.Authenticate := rest.Authenticate unnamed;
  rest.Rules := [1; 2]%positive
|}.

(** A handler whose slice of rules holds a nil pointer (no rule is at [3]). *)
Definition dangling : Handler := {|
  rest.ResourceName := "widgets";
  rest.CreateURI := "";
  rest.ReadURI := "";
  rest.ReadListURI := "";
  rest.UpdateURI := "";
  rest.DeleteURI := "";
  rest.EmptyResource := Some ("Widget", tt);
  rest.CreateResource := rest.CreateResource unnamed;
  rest.ReadResourceList := rest.ReadResourceList unnamed;
  rest.ReadResource := rest.ReadResource unnamed;
  rest.UpdateResource := rest.UpdateResource unnamed;
  rest.DeleteResource := rest.DeleteResource unnamed;
  rest.Authenticate := rest.Authenticate unnamed;
  rest.Rules := [1; 3]%positive
|}.

(** The two rules, not yet bound to a type. *)
Definition rules : gmap positive (rest.Rule string) :=
  <[2%positive := {| rest.Field := "Price"; rest.resourceType := None |}]>
    {[1%positive := {| rest.Field := "Name"; rest.resourceType := None |}]}.

End example.

(** * Properties *)

(** ** Response dispatch and the verb handlers *)

Section ServerFacts.
Import context server.
Context {Resource St Serializer Request : Type}.
Context `{X : !Externals Resource Serializer Request}.
Implicit Types (h : requestHandler Serializer) (r : Request) (e err : error)
  (ctx : RequestContext Resource) (w : list (Write Resource Serializer)) (s : St).

(** Running a computation that returns, then another. *)
Lemma bind_Return {A B : Type} (c : M St A) (f : A -> M St B) s a s' :
  c s = Return (a, s') -> (c ≫= f) s = f a s'.
Proof. intros Hc. unfold mbind, M_bind. now rewrite Hc. Qed.

(** A panic in the first of two computations is the panic of both. *)
Lemma bind_Panic {A B : Type} (c : M St A) (f : A -> M St B) s msg :
  c s = Panic msg -> (c ≫= f) s = Panic msg.
Proof. intros Hc. unfold mbind, M_bind. now rewrite Hc. Qed.

(** A format without a serializer: the JSON serializer, 501 and the
    lookup's error, whatever the context recorded. *)
Lemma resolve_unsupported h ctx err :
  responseSerializer (embedded h) (ResponseFormat ctx) = inr err ->
  sendResponse_resolve h ctx = (jsonSerializer, StatusNotImplemented, Some err).
Proof. intros Hf. unfold sendResponse_resolve. now rewrite Hf. Qed.

(** A format with a serializer: the context's own status and error. *)
Lemma resolve_registered h ctx serializer :
  responseSerializer (embedded h) (ResponseFormat ctx) = inl serializer ->
  sendResponse_resolve h ctx = (serializer, Status ctx, Error ctx).
Proof. intros Hf. unfold sendResponse_resolve. now rewrite Hf. Qed.

(** With an error after the fallback, [sendResponse] writes one error
    response, at the status raised to 500 when it was below 400. *)
Lemma sendResponse_error h w ctx serializer status e :
  sendResponse_resolve h ctx = (serializer, status, Some e) ->
  sendResponse h w ctx =
    w ++ [ErrorResponse serializer e
            (if (status <? 400)%Z then StatusInternalServerError else status)].
Proof. intros Hr. unfold sendResponse. now rewrite Hr. Qed.

(** Without one, it writes one success response at the recorded status. *)
Lemma sendResponse_success h w ctx serializer status :
  sendResponse_resolve h ctx = (serializer, status, None) ->
  sendResponse h w ctx =
    w ++ [SuccessResponse serializer
            (newSuccessResponse (Result ctx) (NextURL ctx).1) status].
Proof.
  intros Hr. unfold sendResponse. rewrite Hr.
  now destruct (NextURL ctx) as [nextURL ?].
Qed.

(** The context of a create whose body decoded and whose operation
    returned. *)
Lemma handleCreate_ctx_decoded (createFunc : CreateFunc) r s data resource
    (err : option error) s' :
  Decode (RequestBody r) = (data, None) ->
  createFunc (NewContext r) data (Version (NewContext r)) s
    = Return ((resource, err), s') ->
  handleCreate_ctx createFunc r s =
    Return (let ctx := SetStatus (SetResult (NewContext r) (ofResource resource))
                         StatusCreated in
            match err with Some _ => SetError ctx err | None => ctx end, s').
Proof.
  intros Hd Hop. unfold handleCreate_ctx. rewrite Hd.
  now rewrite (bind_Return _ _ _ _ _ Hop).
Qed.

(** The context of an update whose body decoded and whose operation
    returned. *)
Lemma handleUpdate_ctx_decoded (updateFunc : UpdateFunc) r s data resource
    (err : option error) s' :
  Decode (RequestBody r) = (data, None) ->
  updateFunc (NewContext r) (ResourceId (NewContext r)) data
      (Version (NewContext r)) s = Return ((resource, err), s') ->
  handleUpdate_ctx updateFunc r s =
    Return (SetStatus (SetError (SetResult (NewContext r) (ofResource resource)) err)
              StatusOK, s').
Proof.
  intros Hd Hop. unfold handleUpdate_ctx. rewrite Hd.
  now rewrite (bind_Return _ _ _ _ _ Hop).
Qed.

(** The context of a create or an update whose body did not decode: the
    operation function does not occur in it, and the store is as it was. *)
Lemma ctx_decode_failed (createFunc : CreateFunc) (updateFunc : UpdateFunc)
    r s data e :
  Decode (RequestBody r) = (data, Some e) ->
  handleCreate_ctx createFunc r s =
    Return (SetStatus (SetError (NewContext r) (Some e)) StatusInternalServerError, s)
  /\ handleUpdate_ctx updateFunc r s =
    Return (SetStatus (SetError (NewContext r) (Some e)) StatusInternalServerError, s).
Proof.
  intros Hd. unfold handleCreate_ctx, handleUpdate_ctx. now rewrite Hd.
Qed.

(** C1: when the error is non-nil after the format fallback, dispatch
    raises a status below 400 to 500 and writes one error response with that
    serializer, error and status, and no success response.  In particular a
    create whose operation returns an error reaches dispatch with status 201
    and that error, and the response written is an error response: at 500
    when the format has a serializer, and the fallback's 501 when it has
    none; never a 201. *)
Theorem C1_error_is_sent_as_error :
  (forall h w ctx serializer status e,
      sendResponse_resolve h ctx = (serializer, status, Some e) ->
      sendResponse h w ctx =
        w ++ [ErrorResponse serializer e
                (if (status <? 400)%Z then StatusInternalServerError else status)])
  /\ (forall h (createFunc : CreateFunc) w r s data resource e s',
      Decode (RequestBody r) = (data, None) ->
      createFunc (NewContext r) data (Version (NewContext r)) s
        = Return ((resource, Some e), s') ->
      exists ctx,
        handleCreate_ctx createFunc r s = Return (ctx, s')
        /\ Status ctx = StatusCreated
        /\ Error ctx = Some e
        /\ handleCreate h createFunc w r s =
             Return (w ++ [match responseSerializer (embedded h) (ResponseFormat ctx) with
                           | inl serializer =>
                               ErrorResponse serializer e StatusInternalServerError
                           | inr err =>
                               ErrorResponse jsonSerializer err StatusNotImplemented
                           end], s')).
Proof.
  split.
  - intros h w ctx serializer status e Hr. now apply sendResponse_error.
  - intros h createFunc w r s data resource e s' Hd Hop.
    pose proof (handleCreate_ctx_decoded createFunc r s data resource (Some e) s' Hd Hop)
      as Hctx.
    cbn zeta in Hctx.
    eexists. split; [exact Hctx |]. split; [reflexivity |]. split; [reflexivity |].
    unfold handleCreate. rewrite (bind_Return _ _ _ _ _ Hctx).
    unfold mret, M_ret. f_equal. f_equal.
    destruct (responseSerializer (embedded h)
                (ResponseFormat (SetError (SetStatus (SetResult (NewContext r)
                   (ofResource resource)) StatusCreated) (Some e)))) as [ser | err] eqn:Hf.
    + now rewrite (sendResponse_error h w _ ser StatusCreated e)
        by (now rewrite (resolve_registered _ _ _ Hf)).
    + now rewrite (sendResponse_error h w _ jsonSerializer StatusNotImplemented err)
        by (now rewrite (resolve_unsupported _ _ _ Hf)).
Qed.

(** C2: when the body decodes (create, update) or there is none (read, read
    list, delete) and the operation returns, the context handed to
    [sendResponse] has the verb's default status, 201 for create and 200 for
    the others, and the error the operation returned, whatever that error
    is: a success status and a non-nil error together when it returned
    one. *)
Theorem C2_default_status_whatever_the_error :
  (forall h (createFunc : CreateFunc) w r s data resource (err : option error) s',
      Decode (RequestBody r) = (data, None) ->
      createFunc (NewContext r) data (Version (NewContext r)) s
        = Return ((resource, err), s') ->
      exists ctx,
        handleCreate_ctx createFunc r s = Return (ctx, s')
        /\ handleCreate h createFunc w r s = Return (sendResponse h w ctx, s')
        /\ Status ctx = StatusCreated
        /\ Error ctx = match err with Some _ => err | None => Error (NewContext r) end)
  /\ (forall h (readFunc : ReadListFunc) w r s resources cursor (err : option error) s',
      readFunc (NewContext r) (Limit (NewContext r)) (Version (NewContext r)) s
        = Return ((resources, cursor, err), s') ->
      exists ctx,
        handleReadList_ctx readFunc r s = Return (ctx, s')
        /\ handleReadList h readFunc w r s = Return (sendResponse h w ctx, s')
        /\ Status ctx = StatusOK /\ Error ctx = err)
  /\ (forall h (readFunc : ReadFunc) w r s resource (err : option error) s',
      readFunc (NewContext r) (ResourceId (NewContext r)) (Version (NewContext r)) s
        = Return ((resource, err), s') ->
      exists ctx,
        handleRead_ctx readFunc r s = Return (ctx, s')
        /\ handleRead h readFunc w r s = Return (sendResponse h w ctx, s')
        /\ Status ctx = StatusOK /\ Error ctx = err)
  /\ (forall h (updateFunc : UpdateFunc) w r s data resource (err : option error) s',
      Decode (RequestBody r) = (data, None) ->
      updateFunc (NewContext r) (ResourceId (NewContext r)) data
          (Version (NewContext r)) s = Return ((resource, err), s') ->
      exists ctx,
        handleUpdate_ctx updateFunc r s = Return (ctx, s')
        /\ handleUpdate h updateFunc w r s = Return (sendResponse h w ctx, s')
        /\ Status ctx = StatusOK /\ Error ctx = err)
  /\ (forall h (deleteFunc : ReadFunc) w r s resource (err : option error) s',
      deleteFunc (NewContext r) (ResourceId (NewContext r)) (Version (NewContext r)) s
        = Return ((resource, err), s') ->
      exists ctx,
        handleDelete_ctx deleteFunc r s = Return (ctx, s')
        /\ handleDelete h deleteFunc w r s = Return (sendResponse h w ctx, s')
        /\ Status ctx = StatusOK /\ Error ctx = err).
Proof.
  repeat split.
  - intros h createFunc w r s data resource err s' Hd Hop.
    pose proof (handleCreate_ctx_decoded createFunc r s data resource err s' Hd Hop)
      as Hctx.
    eexists. split; [exact Hctx |].
    split; [unfold handleCreate; now rewrite (bind_Return _ _ _ _ _ Hctx) |].
    now destruct err.
  - intros h readFunc w r s resources cursor err s' Hop.
    assert (Hctx : handleReadList_ctx readFunc r s =
                   Return (SetStatus (SetError (SetCursor (SetResult (NewContext r)
                             (Many resources)) cursor) err) StatusOK, s'))
      by (unfold handleReadList_ctx; now rewrite (bind_Return _ _ _ _ _ Hop)).
    eexists. split; [exact Hctx |].
    split; [unfold handleReadList; now rewrite (bind_Return _ _ _ _ _ Hctx) |].
    now split.
  - intros h readFunc w r s resource err s' Hop.
    assert (Hctx : handleRead_ctx readFunc r s =
                   Return (SetStatus (SetError (SetResult (NewContext r)
                             (ofResource resource)) err) StatusOK, s'))
      by (unfold handleRead_ctx; now rewrite (bind_Return _ _ _ _ _ Hop)).
    eexists. split; [exact Hctx |].
    split; [unfold handleRead; now rewrite (bind_Return _ _ _ _ _ Hctx) |].
    now split.
  - intros h updateFunc w r s data resource err s' Hd Hop.
    pose proof (handleUpdate_ctx_decoded updateFunc r s data resource err s' Hd Hop)
      as Hctx.
    eexists. split; [exact Hctx |].
    split; [unfold handleUpdate; now rewrite (bind_Return _ _ _ _ _ Hctx) |].
    now split.
  - intros h deleteFunc w r s resource err s' Hop.
    assert (Hctx : handleDelete_ctx deleteFunc r s =
                   Return (SetStatus (SetError (SetResult (NewContext r)
                             (ofResource resource)) err) StatusOK, s'))
      by (unfold handleDelete_ctx; now rewrite (bind_Return _ _ _ _ _ Hop)).
    eexists. split; [exact Hctx |].
    split; [unfold handleDelete; now rewrite (bind_Return _ _ _ _ _ Hctx) |].
    now split.
Qed.

(** C3: when the requested format has no serializer, dispatch writes one
    error response with the JSON serializer, status 501 and the lookup's
    unsupported-format error, whatever result, error and status the context
    recorded. *)
Theorem C3_unsupported_format_is_501_json h w ctx err :
  responseSerializer (embedded h) (ResponseFormat ctx) = inr err ->
  sendResponse h w ctx =
    w ++ [ErrorResponse jsonSerializer err StatusNotImplemented].
Proof.
  intros Hf.
  rewrite (sendResponse_error h w ctx jsonSerializer StatusNotImplemented err).
  - reflexivity.
  - now apply resolve_unsupported.
Qed.

(** C4: when the body of a create or update request does not decode, the
    context handed to dispatch has the decode error as its error and status
    500, and it and the store are the same whatever the operation function
    is (one that would panic or write to the store included): the operation
    is not invoked. *)
Theorem C4_decode_failure_skips_the_operation r s data e :
  Decode (RequestBody r) = (data, Some e) ->
  exists ctx,
    Error ctx = Some e
    /\ Status ctx = StatusInternalServerError
    /\ forall (createFunc : CreateFunc) (updateFunc : UpdateFunc),
         handleCreate_ctx createFunc r s = Return (ctx, s)
         /\ handleUpdate_ctx updateFunc r s = Return (ctx, s).
Proof.
  intros Hd.
  exists (SetStatus (SetError (NewContext r) (Some e)) StatusInternalServerError).
  split; [reflexivity |]. split; [reflexivity |].
  intros createFunc updateFunc.
  exact (ctx_decode_failed createFunc updateFunc r s data e Hd).
Qed.

(** C9: for every context, [sendResponse] adds exactly one response to what
    was written before: an error response when the context has an error or
    the format has no serializer, a success response otherwise. *)
Theorem C9_exactly_one_write h w ctx :
  exists x,
    sendResponse h w ctx = w ++ [x]
    /\ (isErrorResponse x = true <->
        (is_Some (Error ctx)
         \/ exists err, responseSerializer (embedded h) (ResponseFormat ctx) = inr err)).
Proof.
  destruct (responseSerializer (embedded h) (ResponseFormat ctx))
    as [serializer | err] eqn:Hf.
  - pose proof (resolve_registered h ctx serializer Hf) as Hr.
    destruct (Error ctx) as [e |] eqn:He.
    + eexists. split; [exact (sendResponse_error h w ctx _ _ _ Hr) |].
      cbn. split; [intros _; left; eauto | reflexivity].
    + eexists. split; [exact (sendResponse_success h w ctx _ _ Hr) |].
      cbn. split; [discriminate |].
      intros [[e' He'] | [err Herr]]; discriminate.
  - pose proof (resolve_unsupported h ctx err Hf) as Hr.
    eexists. split; [exact (sendResponse_error h w ctx _ _ _ Hr) |].
    cbn. split; [intros _; right; eauto | reflexivity].
Qed.

(** C10, as amended: when the body of a create or update request is a JSON
    array, string, number or boolean, decoding into the string-keyed map
    fails with a type error and the request takes the path of a malformed
    body (that error, status 500, the operation not invoked).  When the body
    is JSON null, decoding succeeds with the nil map and the operation is
    invoked with it.  Nothing but the decoder checks the shape. *)
Theorem C10_shape_is_checked_by_the_decoder_only r s v :
  RequestBody r = NextValue v ->
  (isObject v = false -> isNull v = false ->
   exists value ctx,
     Decode (RequestBody r) = (None, Some (UnmarshalTypeError value))
     /\ Error ctx = Some (UnmarshalTypeError value)
     /\ Status ctx = StatusInternalServerError
     /\ forall (createFunc : CreateFunc) (updateFunc : UpdateFunc),
          handleCreate_ctx createFunc r s = Return (ctx, s)
          /\ handleUpdate_ctx updateFunc r s = Return (ctx, s))
  /\ (isNull v = true ->
      Decode (RequestBody r) = (None, None)
      /\ forall (createFunc : CreateFunc) (updateFunc : UpdateFunc),
           handleCreate_ctx createFunc r s =
             ('(resource, err) ← createFunc (NewContext r) None (Version (NewContext r));
              let ctx := SetStatus (SetResult (NewContext r) (ofResource resource))
                           StatusCreated in
              mret (match err with Some _ => SetError ctx err | None => ctx end)) s
           /\ handleUpdate_ctx updateFunc r s =
             ('(resource, err) ← updateFunc (NewContext r) (ResourceId (NewContext r))
                                   None (Version (NewContext r));
              mret (SetStatus (SetError (SetResult (NewContext r) (ofResource resource))
                                 err) StatusOK)) s).
Proof.
  intros Hb. split.
  - intros Hobj Hnull.
    assert (Hd : exists value,
               Decode (RequestBody r) = (None, Some (UnmarshalTypeError value)))
      by (rewrite Hb; destruct v; try discriminate; cbn; eauto).
    destruct Hd as [value Hd]. exists value.
    exists (SetStatus (SetError (NewContext r) (Some (UnmarshalTypeError value)))
              StatusInternalServerError).
    split; [exact Hd |]. split; [reflexivity |]. split; [reflexivity |].
    intros createFunc updateFunc.
    exact (ctx_decode_failed createFunc updateFunc r s None _ Hd).
  - intros Hnull. destruct v; try discriminate.
    assert (Hd : Decode (RequestBody r) = (None, None)) by now rewrite Hb.
    split; [exact Hd |].
    intros createFunc updateFunc.
    unfold handleCreate_ctx, handleUpdate_ctx. rewrite Hd. split.
    + unfold mbind, M_bind.
      destruct (createFunc _ _ _ s) as [[[resource err] s'] | msg]; reflexivity.
    + unfold mbind, M_bind.
      destruct (updateFunc _ _ _ _ s) as [[[resource err] s'] | msg]; reflexivity.
Qed.

End ServerFacts.

(** ** The handler proxy and the base handlers *)

Section RestFacts.
Import rest rest.resourceHandlerProxy.
Context {RequestContext Resource Request St GoType : Type}.
Variables versionKey resourceIDKey : string.
Implicit Types (r : t RequestContext Resource Request St GoType)
  (hp : gmap positive (Rule GoType)) (rules : list positive).

(** The proxy's [ResourceName] on a name that is not empty. *)
Lemma ResourceName_named r :
  rest.ResourceName (wrapped r) <> "" ->
  ResourceName r = Return (rest.ResourceName (wrapped r)).
Proof.
  intros Hn. unfold ResourceName.
  destruct (String.eqb_spec (rest.ResourceName (wrapped r)) ""); [contradiction | reflexivity].
Qed.

(** The proxy's [ResourceName] on the empty name. *)
Lemma ResourceName_unnamed r :
  rest.ResourceName (wrapped r) = "" ->
  ResourceName r = Panic "ResourceHandler must implement ResourceName()".
Proof. intros Hn. unfold ResourceName. now rewrite Hn. Qed.

(** The test [url == ""] on a string that is not empty. *)
Lemma eqb_empty_false (url : string) : url <> "" -> String.eqb url "" = false.
Proof. intros Hu. now apply String.eqb_neq. Qed.

(** Stamping a live rule twice with one type is stamping it once, and the
    loop of [Rules] stamps every rule of the slice: it ends without a panic
    when every pointer of the slice is live, each rule of the slice then
    holds the type and its other fields as before, and every other rule of
    the heap is as before. *)
Lemma Rules_range_stamps r rules : forall hp,
  (forall p, p ∈ rules -> is_Some (hp !! p)) ->
  exists hp',
    Rules_range r rules hp = Return (tt, hp')
    /\ (forall p, p ∈ rules ->
        exists x, hp !! p = Some x
          /\ hp' !! p = Some {| Field := Field x;
                                resourceType := TypeOf (EmptyResource (wrapped r)) |})
    /\ (forall p, p ∉ rules -> hp' !! p = hp !! p).
Proof.
  induction rules as [| rule rules' IH]; intros hp Hlive.
  - exists hp. split; [reflexivity |]. split; [| reflexivity].
    intros p Hp. now apply elem_of_nil in Hp.
  - destruct (Hlive rule) as [x Hx]; [left |].
    set (ty := TypeOf (EmptyResource (wrapped r))).
    set (hp1 := <[rule := {| Field := Field x; resourceType := ty |}]> hp).
    assert (Hstep : setResourceType rule ty hp = Return (tt, hp1))
      by (unfold setResourceType; now rewrite Hx).
    destruct (IH hp1) as (hp' & Hrun & Hin & Hout).
    { intros p Hp. unfold hp1. destruct (decide (rule = p)) as [-> | Hne].
      - rewrite lookup_insert_eq. eauto.
      - rewrite lookup_insert_ne by exact Hne. apply Hlive. now right. }
    exists hp'. split; [| split].
    + cbn [Rules_range]. fold ty. now rewrite (bind_Return _ _ _ _ _ Hstep).
    + intros p Hp. destruct (decide (p ∈ rules')) as [Hp' | Hp'].
      * destruct (Hin p Hp') as (x1 & Hx1 & Hx1').
        unfold hp1 in Hx1. destruct (decide (rule = p)) as [-> | Hne].
        -- rewrite lookup_insert_eq in Hx1. injection Hx1 as <-.
           exists x. split; [exact Hx | exact Hx1'].
        -- rewrite lookup_insert_ne in Hx1 by exact Hne.
           exists x1. split; [exact Hx1 | exact Hx1'].
      * apply elem_of_cons in Hp as [-> | Hp]; [| contradiction].
        exists x. split; [exact Hx |].
        rewrite (Hout rule Hp'). unfold hp1. apply lookup_insert_eq.
    + intros p Hp. apply not_elem_of_cons in Hp as [Hne Hp'].
      rewrite (Hout p Hp'). unfold hp1. now rewrite lookup_insert_ne.
Qed.

(** C5, as amended: each URI getter of the proxy returns the handler's own
    URI unmodified when that is not empty.  When it is empty and the
    handler's resource name is not, the getter returns the default built
    from the name: the plural form for create and read list, the singular
    form for read, update and delete.  When both are empty, the create,
    read, read-list and update getters panic for the missing name. *)
Theorem C5_uri_getters r :
  (rest.CreateURI (wrapped r) <> "" ->
   CreateURI versionKey r = Return (rest.CreateURI (wrapped r)))
  /\ (rest.ReadURI (wrapped r) <> "" ->
      ReadURI versionKey resourceIDKey r = Return (rest.ReadURI (wrapped r)))
  /\ (rest.ReadListURI (wrapped r) <> "" ->
      ReadListURI versionKey r = Return (rest.ReadListURI (wrapped r)))
  /\ (rest.UpdateURI (wrapped r) <> "" ->
      UpdateURI versionKey resourceIDKey r = Return (rest.UpdateURI (wrapped r)))
  /\ (rest.DeleteURI (wrapped r) <> "" ->
      DeleteURI versionKey resourceIDKey r = Return (rest.DeleteURI (wrapped r)))
  /\ (rest.ResourceName (wrapped r) <> "" ->
      (rest.CreateURI (wrapped r) = "" ->
       CreateURI versionKey r
         = Return (pluralURI versionKey (rest.ResourceName (wrapped r))))
      /\ (rest.ReadURI (wrapped r) = "" ->
          ReadURI versionKey resourceIDKey r
            = Return (singularURI versionKey resourceIDKey (rest.ResourceName (wrapped r))))
      /\ (rest.ReadListURI (wrapped r) = "" ->
          ReadListURI versionKey r
            = Return (pluralURI versionKey (rest.ResourceName (wrapped r))))
      /\ (rest.UpdateURI (wrapped r) = "" ->
          UpdateURI versionKey resourceIDKey r
            = Return (singularURI versionKey resourceIDKey (rest.ResourceName (wrapped r))))
      /\ (rest.DeleteURI (wrapped r) = "" ->
          DeleteURI versionKey resourceIDKey r
            = Return (singularURI versionKey resourceIDKey (rest.ResourceName (wrapped r)))))
  /\ (rest.ResourceName (wrapped r) = "" ->
      (rest.CreateURI (wrapped r) = "" ->
       CreateURI versionKey r = Panic "ResourceHandler must implement ResourceName()")
      /\ (rest.ReadURI (wrapped r) = "" ->
          ReadURI versionKey resourceIDKey r
            = Panic "ResourceHandler must implement ResourceName()")
      /\ (rest.ReadListURI (wrapped r) = "" ->
          ReadListURI versionKey r = Panic "ResourceHandler must implement ResourceName()")
      /\ (rest.UpdateURI (wrapped r) = "" ->
          UpdateURI versionKey resourceIDKey r
            = Panic "ResourceHandler must implement ResourceName()")).
Proof.
  unfold CreateURI, ReadURI, ReadListURI, UpdateURI, DeleteURI.
  repeat match goal with |- _ /\ _ => split end.
  1-5: intros Hu; now rewrite (eqb_empty_false _ Hu).
  - intros Hn. rewrite (ResourceName_named r Hn).
    repeat split; intros ->; reflexivity.
  - intros Hn. rewrite (ResourceName_unnamed r Hn).
    repeat split; intros ->; reflexivity.
Qed.

(** C7, as amended: when every rule of the handler's slice is a live
    pointer, the proxy's [Rules] returns that slice without failing, and
    every rule in it then carries as its type tag what [reflect.TypeOf]
    gives for [EmptyResource()]: the resource's type when the value is not
    nil, and the nil type, with no error, when it is nil. *)
Theorem C7_rules_carry_the_type r hp :
  (forall p, p ∈ rest.Rules (wrapped r) -> is_Some (hp !! p)) ->
  exists hp',
    Rules r hp = Return (rest.Rules (wrapped r), hp')
    /\ forall p, p ∈ rest.Rules (wrapped r) ->
         exists x,
           hp' !! p = Some x
           /\ resourceType x = match EmptyResource (wrapped r) with
                               | Some (ty, _) => Some ty
                               | None => None
                               end.
Proof.
  intros Hlive.
  destruct (Rules_range_stamps r (rest.Rules (wrapped r)) hp Hlive)
    as (hp' & Hrun & Hin & _).
  exists hp'. split.
  - unfold Rules. now rewrite (bind_Return _ _ _ _ _ Hrun).
  - intros p Hp. destruct (Hin p Hp) as (x & _ & Hx').
    eexists. split; [exact Hx' |].
    cbn. now destruct (EmptyResource (wrapped r)) as [[ty v] |].
Qed.

End RestFacts.

Section BaseHandlers.
Context {RequestContext Resource Request St GoType : Type}.

(** C8, as amended: every CRUD stub of package rest's [BaseResourceHandler]
    returns, with a nil result and a NotImplemented error, and leaves the
    store as it was; every CRUD stub of package server's
    [BaseResourceHandler] panics.  A resource name left out is a panic in
    both packages: of the proxy's [ResourceName] in package rest, of the
    stub itself in package server. *)
Theorem C8_base_handler_stubs :
  let base := @rest.BaseResourceHandler RequestContext Resource Request St GoType in
  let sbase := @server.BaseResourceHandler Resource St Request in
  (forall ctx data version s,
      rest.CreateResource base ctx data version s
        = Return ((None, Some (NotImplemented "CreateResource is not implemented")), s))
  /\ (forall ctx limit cursor version s,
      rest.ReadResourceList base ctx limit cursor version s
        = Return (([], "", Some (NotImplemented "ReadResourceList not implemented")), s))
  /\ (forall ctx id version s,
      rest.ReadResource base ctx id version s
        = Return ((None, Some (NotImplemented "ReadResource not implemented")), s))
  /\ (forall ctx id data version s,
      rest.UpdateResource base ctx id data version s
        = Return ((None, Some (NotImplemented "UpdateResource not implemented")), s))
  /\ (forall ctx id version s,
      rest.DeleteResource base ctx id version s
        = Return ((None, Some (NotImplemented "DeleteResource not implemented")), s))
  /\ (forall reason, isNotImplemented (NotImplemented reason) = true)
  /\ rest.resourceHandlerProxy.ResourceName (rest.resourceHandlerProxy.wrap base)
       = Panic "ResourceHandler must implement ResourceName()"
  /\ (forall ctx data version s,
      server.CreateResource sbase ctx data version s
        = Panic "CreateResource not implemented")
  /\ (forall ctx limit version s,
      server.ReadResourceList sbase ctx limit version s
        = Panic "ReadResourceList not implemented")
  /\ (forall ctx id version s,
      server.ReadResource sbase ctx id version s = Panic "ReadResource not implemented")
  /\ (forall ctx id data version s,
      server.UpdateResource sbase ctx id data version s
        = Panic "UpdateResource not implemented")
  /\ (forall ctx id version s,
      server.DeleteResource sbase ctx id version s
        = Panic "DeleteResource not implemented")
  /\ server.ResourceName sbase = Panic "ResourceName not implemented".
Proof. cbv zeta. repeat split. Qed.

End BaseHandlers.

(** ** The properties on concrete requests and handlers *)

Section Runs.
Import context example.

(** C1 on a context with status 201 and an error, and on a create whose
    operation fails: an error response at 500. *)
Lemma C1_witness :
  server.sendResponse_resolve h failed = ("json", StatusCreated, Some boom)
  /\ server.sendResponse h [] failed = [server.ErrorResponse "json" boom 500]
  /\ server.handleCreate h failingCreate [] (post object "json") 0
     = Return ([server.ErrorResponse "json" boom 500], 1).
Proof.
  split; [reflexivity |]. split.
  - exact (proj1 (C1_error_is_sent_as_error (St := nat) (X := externals))
             h [] failed "json" StatusCreated boom eq_refl).
  - destruct (proj2 (C1_error_is_sent_as_error (X := externals))
                h failingCreate [] (post object "json") 0 _ None boom 1 eq_refl eq_refl)
      as (ctx & Hctx & _ & _ & Hrun).
    vm_compute in Hctx. injection Hctx as <-. exact Hrun.
Defined.

(** C2 on a create and a list read whose operations fail: status 201 and
    200, each with the operation's error. *)
Lemma C2_witness :
  (exists ctx,
      server.handleCreate_ctx failingCreate (post object "json") 0 = Return (ctx, 1)
      /\ Status ctx = StatusCreated /\ Error ctx = Some boom)
  /\ (exists ctx,
      server.handleReadList_ctx failingReadList (post object "json") 0 = Return (ctx, 1)
      /\ Status ctx = StatusOK /\ Error ctx = Some boom).
Proof.
  pose proof (C2_default_status_whatever_the_error (St := nat) (X := externals))
    as (Hcreate & Hlist & _).
  split.
  - destruct (Hcreate h failingCreate [] (post object "json") 0 _ None (Some boom) 1
                eq_refl eq_refl) as (ctx & Hctx & _ & Hst & Herr).
    exists ctx. split; [exact Hctx |]. split; [exact Hst | exact Herr].
  - destruct (Hlist h failingReadList [] (post object "json") 0 [] "" (Some boom) 1
                eq_refl) as (ctx & Hctx & _ & Hst & Herr).
    exists ctx. split; [exact Hctx |]. split; [exact Hst | exact Herr].
Defined.

(** C3 on a successful read asked for as [xml], which has no serializer. *)
Lemma C3_witness :
  server.responseSerializer (server.embedded h) (ResponseFormat readAsXml)
    = inr unsupported
  /\ server.sendResponse h [] readAsXml
     = [server.ErrorResponse "json" unsupported StatusNotImplemented].
Proof.
  split; [reflexivity |].
  exact (C3_unsupported_format_is_501_json (X := externals) h [] readAsXml unsupported
           eq_refl).
Defined.

(** C4 on an empty body: status 500 and the syntax error, with an
    operation that counts its calls and with one that would panic. *)
Lemma C4_witness :
  Decode (NoValue (SyntaxError "EOF")) = (None, Some (SyntaxError "EOF"))
  /\ exists ctx,
       Error ctx = Some (SyntaxError "EOF")
       /\ Status ctx = StatusInternalServerError
       /\ server.handleCreate_ctx countingCreate (post (NoValue (SyntaxError "EOF")) "json") 0
          = Return (ctx, 0)
       /\ server.handleCreate_ctx forbiddenCreate (post (NoValue (SyntaxError "EOF")) "json") 0
          = Return (ctx, 0)
       /\ server.handleUpdate_ctx countingUpdate (post (NoValue (SyntaxError "EOF")) "json") 0
          = Return (ctx, 0).
Proof.
  split; [reflexivity |].
  destruct (C4_decode_failure_skips_the_operation (X := externals)
              (post (NoValue (SyntaxError "EOF")) "json") 0 None (SyntaxError "EOF") eq_refl)
    as (ctx & Herr & Hst & Hops).
  exists ctx. split; [exact Herr |]. split; [exact Hst |].
  split; [exact (proj1 (Hops countingCreate countingUpdate)) |].
  split; [exact (proj1 (Hops forbiddenCreate countingUpdate)) |].
  exact (proj2 (Hops countingCreate countingUpdate)).
Defined.

(** C5 on a named handler that sets only its read URI: that URI as it is,
    and the defaults built from the name for the others. *)
Lemma C5_witness :
  rest.resourceHandlerProxy.ReadURI "version" "resource_id"
    (rest.resourceHandlerProxy.wrap widgets) = Return "/widgets/{id}"
  /\ rest.resourceHandlerProxy.CreateURI "version"
       (rest.resourceHandlerProxy.wrap widgets) = Return "/api/v{version:[^/]+}/widgets"
  /\ rest.resourceHandlerProxy.DeleteURI "version" "resource_id"
       (rest.resourceHandlerProxy.wrap widgets)
     = Return "/api/v{version:[^/]+}/widgets/{resource_id}".
Proof.
  destruct (C5_uri_getters "version" "resource_id" (rest.resourceHandlerProxy.wrap widgets))
    as (_ & Hread & _ & _ & _ & Hdefault & _).
  split; [apply Hread; discriminate |].
  destruct Hdefault as (Hcreate & _ & _ & _ & Hdelete); [discriminate |].
  split; [apply Hcreate; reflexivity | apply Hdelete; reflexivity].
Defined.

(** C5 as stated fails on a handler without a name: its create URI is
    empty, and the proxy's getter panics where the claim has it return the
    default. *)
Lemma C5_unnamed_getter_panics :
  rest.CreateURI unnamed = ""
  /\ rest.resourceHandlerProxy.CreateURI "version" (rest.resourceHandlerProxy.wrap unnamed)
     = Panic "ResourceHandler must implement ResourceName()".
Proof. split; reflexivity. Qed.

(** C6: on a handler without a name and without URIs the proxy's
    [ResourceName] and four of its URI getters panic, and its [DeleteURI]
    returns a route whose resource-name segment is empty. *)
Lemma C6_DeleteURI_skips_the_name_check :
  rest.ResourceName unnamed = ""
  /\ rest.resourceHandlerProxy.ResourceName (rest.resourceHandlerProxy.wrap unnamed)
     = Panic "ResourceHandler must implement ResourceName()"
  /\ rest.resourceHandlerProxy.ReadURI "version" "resource_id"
       (rest.resourceHandlerProxy.wrap unnamed)
     = Panic "ResourceHandler must implement ResourceName()"
  /\ rest.resourceHandlerProxy.UpdateURI "version" "resource_id"
       (rest.resourceHandlerProxy.wrap unnamed)
     = Panic "ResourceHandler must implement ResourceName()"
  /\ rest.resourceHandlerProxy.DeleteURI "version" "resource_id"
       (rest.resourceHandlerProxy.wrap unnamed)
     = Return "/api/v{version:[^/]+}//{resource_id}".
Proof. repeat split. Qed.

(** C7 on a handler with two rules and a resource of type Widget. *)
Lemma C7_witness :
  exists hp',
    rest.resourceHandlerProxy.Rules (rest.resourceHandlerProxy.wrap widgets) rules
      = Return ([1; 2]%positive, hp')
    /\ forall p, p ∈ [1; 2]%positive ->
         exists x, hp' !! p = Some x /\ rest.resourceType x = Some "Widget".
Proof.
  apply (C7_rules_carry_the_type (rest.resourceHandlerProxy.wrap widgets) rules).
  intros p Hp.
  apply elem_of_cons in Hp as [-> | Hp]; [eexists; reflexivity |].
  apply elem_of_cons in Hp as [-> | Hp]; [eexists; reflexivity |].
  now apply elem_of_nil in Hp.
Defined.

(** C7 as stated fails on a handler with rules and a nil [EmptyResource]:
    the proxy's [Rules] returns, with every rule tagged with the nil type. *)
Lemma C7_nil_resource_is_no_error :
  rest.Rules tagless = [1; 2]%positive
  /\ rest.EmptyResource tagless = None
  /\ rest.resourceHandlerProxy.Rules (rest.resourceHandlerProxy.wrap tagless) rules
     = Return ([1; 2]%positive, rules).
Proof. repeat split. Qed.

(** C8 as stated fails on package server's base handler: its create stub
    panics, and so does the handler built from it, which writes nothing. *)
Lemma C8_server_stub_panics :
  server.CreateResource
    (server.BaseResourceHandler (Resource := string) (St := nat) (Request := Request))
    (server.NewContext (post object "json")) None "1" 0
  = Panic "CreateResource not implemented"
  /\ server.handleCreate h
       (server.CreateResource
          (server.BaseResourceHandler (Resource := string) (St := nat) (Request := Request)))
       [] (post object "json") 0
     = Panic "CreateResource not implemented".
Proof. split; reflexivity. Qed.

(** C10 on a body that is a JSON array. *)
Lemma C10_witness :
  exists value ctx,
    Decode (NextValue (JArray [])) = (None, Some (UnmarshalTypeError value))
    /\ Error ctx = Some (UnmarshalTypeError value)
    /\ Status ctx = StatusInternalServerError
    /\ server.handleCreate_ctx forbiddenCreate (post (NextValue (JArray [])) "json") 0
       = Return (ctx, 0)
    /\ server.handleUpdate_ctx countingUpdate (post (NextValue (JArray [])) "json") 0
       = Return (ctx, 0).
Proof.
  destruct (proj1 (C10_shape_is_checked_by_the_decoder_only (X := externals)
                     (post (NextValue (JArray [])) "json") 0 (JArray []) eq_refl)
              eq_refl eq_refl)
    as (value & ctx & Hd & Herr & Hst & Hops).
  exists value, ctx. split; [exact Hd |]. split; [exact Herr |]. split; [exact Hst |].
  exact (Hops forbiddenCreate countingUpdate).
Defined.

(** C10 as stated fails on the body [null], valid JSON that is no object:
    decoding gives no error, the create operation is called once with the
    nil map, and the context has status 201 and no error. *)
Lemma C10_null_body_reaches_the_operation :
  isObject JNull = false
  /\ Decode (NextValue JNull) = (None, None)
  /\ server.handleCreate_ctx countingCreate (post (NextValue JNull) "json") 0
     = Return (mkContext "1" 0 "" "" "json" Nil None StatusCreated None, 1)
  /\ server.handleCreate_ctx forbiddenCreate (post (NextValue JNull) "json") 0
     = Panic "createFunc was called".
Proof. repeat split. Qed.

End Runs.

(** ** The handlers from request to response *)

Section HandlerRuns.
Import context server.
Context {Resource St Serializer Request : Type}.
Context `{X : !Externals Resource Serializer Request}.
Implicit Types (h : requestHandler Serializer) (r : Request) (e err : error)
  (ctx : RequestContext Resource) (w : list (Write Resource Serializer)) (s : St).

(** Two computations in a row return only if the first one does. *)
Lemma bind_Return_inv {A B : Type} (c : M St A) (f : A -> M St B) s b s2 :
  (c ≫= f) s = Return (b, s2) ->
  exists a s1, c s = Return (a, s1) /\ f a s1 = Return (b, s2).
Proof.
  unfold mbind, M_bind. destruct (c s) as [[a s1] | msg]; [eauto | discriminate].
Qed.

(** A handler that returns has sent the context it built. *)
Lemma sent_context (c : M St (RequestContext Resource)) h w s w' s' :
  (c ≫= fun ctx => mret (sendResponse h w ctx)) s = Return (w', s') ->
  exists ctx, c s = Return (ctx, s') /\ w' = sendResponse h w ctx.
Proof.
  intros Hrun. apply bind_Return_inv in Hrun as (ctx & s1 & Hc & Hk).
  unfold mret, M_ret in Hk. injection Hk as <- <-. eauto.
Qed.

(** What the five handlers leave in the context they send: the format of
    the request, and status 200 or 201, or 500 together with an error. *)
Local Abbreviation built r ctx :=
  (ResponseFormat ctx = ResponseFormat (NewContext r)
   /\ (Status ctx = StatusOK \/ Status ctx = StatusCreated
       \/ (Status ctx = StatusInternalServerError /\ is_Some (Error ctx)))).

Lemma handleCreate_ctx_built (createFunc : CreateFunc) r s ctx s' :
  handleCreate_ctx createFunc r s = Return (ctx, s') -> built r ctx.
Proof.
  unfold handleCreate_ctx.
  destruct (Decode (RequestBody r)) as [data [e |]].
  - unfold mret, M_ret. intros [= <- <-]. cbn. eauto 6.
  - intros Hrun. apply bind_Return_inv in Hrun as ([resource err] & s1 & _ & Hk).
    unfold mret, M_ret in Hk. injection Hk as <- <-.
    destruct err; cbn; auto.
Qed.

Lemma handleUpdate_ctx_built (updateFunc : UpdateFunc) r s ctx s' :
  handleUpdate_ctx updateFunc r s = Return (ctx, s') -> built r ctx.
Proof.
  unfold handleUpdate_ctx.
  destruct (Decode (RequestBody r)) as [data [e |]].
  - unfold mret, M_ret. intros [= <- <-]. cbn. eauto 6.
  - intros Hrun. apply bind_Return_inv in Hrun as ([resource err] & s1 & _ & Hk).
    unfold mret, M_ret in Hk. injection Hk as <- <-. cbn. auto.
Qed.

Lemma handleReadList_ctx_built (readFunc : ReadListFunc) r s ctx s' :
  handleReadList_ctx readFunc r s = Return (ctx, s') -> built r ctx.
Proof.
  unfold handleReadList_ctx. intros Hrun.
  apply bind_Return_inv in Hrun as ([[resources cursor] err] & s1 & _ & Hk).
  unfold mret, M_ret in Hk. injection Hk as <- <-. cbn. auto.
Qed.

Lemma handleRead_ctx_built (readFunc : ReadFunc) r s ctx s' :
  handleRead_ctx readFunc r s = Return (ctx, s') -> built r ctx.
Proof.
  unfold handleRead_ctx. intros Hrun.
  apply bind_Return_inv in Hrun as ([resource err] & s1 & _ & Hk).
  unfold mret, M_ret in Hk. injection Hk as <- <-. cbn. auto.
Qed.

Lemma handleDelete_ctx_built (deleteFunc : ReadFunc) r s ctx s' :
  handleDelete_ctx deleteFunc r s = Return (ctx, s') -> built r ctx.
Proof.
  unfold handleDelete_ctx. intros Hrun.
  apply bind_Return_inv in Hrun as ([resource err] & s1 & _ & Hk).
  unfold mret, M_ret in Hk. injection Hk as <- <-. cbn. auto.
Qed.

(** What [sendResponse] writes for such a context. *)
Lemma sendResponse_built h w r ctx :
  built r ctx ->
  exists x,
    sendResponse h w ctx = w ++ [x]
    /\ writeSerializer x =
         match responseSerializer (embedded h) (ResponseFormat (NewContext r)) with
         | inl serializer => serializer
         | inr _ => jsonSerializer
         end
    /\ ((isErrorResponse x = true
         /\ (writeStatus x = StatusInternalServerError
             \/ writeStatus x = StatusNotImplemented))
        \/ (isErrorResponse x = false
            /\ (writeStatus x = StatusOK \/ writeStatus x = StatusCreated))).
Proof.
  intros [Hfmt Hst]. rewrite <- Hfmt.
  destruct (responseSerializer (embedded h) (ResponseFormat ctx))
    as [serializer | err] eqn:Hf.
  - pose proof (resolve_registered h ctx serializer Hf) as Hr.
    destruct (Error ctx) as [e |] eqn:He.
    + eexists. split; [exact (sendResponse_error h w ctx _ _ _ Hr) |].
      split; [reflexivity |]. left. split; [reflexivity |]. left. cbn.
      destruct Hst as [-> | [-> | [-> _]]]; reflexivity.
    + eexists. split; [exact (sendResponse_success h w ctx _ _ Hr) |].
      split; [reflexivity |]. right. split; [reflexivity |]. cbn.
      destruct Hst as [-> | [-> | [_ [e He']]]]; [auto | auto | discriminate].
  - pose proof (resolve_unsupported h ctx err Hf) as Hr.
    eexists. split; [exact (sendResponse_error h w ctx _ _ _ Hr) |].
    split; [reflexivity |]. left. split; [reflexivity |]. now right.
Qed.

(** Whichever of the five handlers runs: when it returns, it has added
    exactly one response to the writer, written by the serializer registered
    for the format of the request, or by the JSON serializer when there is
    none; nothing the operation does changes which. *)
Theorem handlers_answer_once_in_the_request_s_format h w r s w' s' :
  let answered :=
    exists x,
      w' = w ++ [x]
      /\ writeSerializer x =
           match responseSerializer (embedded h) (ResponseFormat (NewContext r)) with
           | inl serializer => serializer
           | inr _ => jsonSerializer
           end in
  (forall createFunc, handleCreate h createFunc w r s = Return (w', s') -> answered)
  /\ (forall readFunc, handleReadList h readFunc w r s = Return (w', s') -> answered)
  /\ (forall readFunc, handleRead h readFunc w r s = Return (w', s') -> answered)
  /\ (forall updateFunc, handleUpdate h updateFunc w r s = Return (w', s') -> answered)
  /\ (forall deleteFunc, handleDelete h deleteFunc w r s = Return (w', s') -> answered).
Proof.
  cbv zeta.
  repeat match goal with |- _ /\ _ => split end;
    intros f Hrun; apply sent_context in Hrun as (ctx & Hctx & ->);
    [ apply handleCreate_ctx_built in Hctx
    | apply handleReadList_ctx_built in Hctx
    | apply handleRead_ctx_built in Hctx
    | apply handleUpdate_ctx_built in Hctx
    | apply handleDelete_ctx_built in Hctx ];
    destruct (sendResponse_built h w r ctx Hctx) as (x & Hx & Hser & _); eauto.
Qed.

(** Whichever of the five handlers runs and whatever the operation returns,
    the response is an error response at 500 or 501 or a success response at
    200 or 201: an operation cannot have any other status sent. *)
Theorem handlers_send_one_of_four_statuses h w r s w' s' :
  let answered :=
    exists x,
      w' = w ++ [x]
      /\ ((isErrorResponse x = true
           /\ (writeStatus x = StatusInternalServerError
               \/ writeStatus x = StatusNotImplemented))
          \/ (isErrorResponse x = false
              /\ (writeStatus x = StatusOK \/ writeStatus x = StatusCreated))) in
  (forall createFunc, handleCreate h createFunc w r s = Return (w', s') -> answered)
  /\ (forall readFunc, handleReadList h readFunc w r s = Return (w', s') -> answered)
  /\ (forall readFunc, handleRead h readFunc w r s = Return (w', s') -> answered)
  /\ (forall updateFunc, handleUpdate h updateFunc w r s = Return (w', s') -> answered)
  /\ (forall deleteFunc, handleDelete h deleteFunc w r s = Return (w', s') -> answered).
Proof.
  cbv zeta.
  repeat match goal with |- _ /\ _ => split end;
    intros f Hrun; apply sent_context in Hrun as (ctx & Hctx & ->);
    [ apply handleCreate_ctx_built in Hctx
    | apply handleReadList_ctx_built in Hctx
    | apply handleRead_ctx_built in Hctx
    | apply handleUpdate_ctx_built in Hctx
    | apply handleDelete_ctx_built in Hctx ];
    destruct (sendResponse_built h w r ctx Hctx) as (x & Hx & _ & Hst); eauto.
Qed.

(** [sendResponse] keeps the writer such that every error response in it
    has a status of 400 or more, for every context, whatever its status. *)
Theorem sendResponse_keeps_error_statuses h w ctx :
  Forall (fun x => isErrorResponse x = true -> (400 <= writeStatus x)%Z) w ->
  Forall (fun x => isErrorResponse x = true -> (400 <= writeStatus x)%Z)
    (sendResponse h w ctx).
Proof.
  intros Hw. unfold sendResponse.
  destruct (sendResponse_resolve h ctx) as [[serializer status] [e |]] eqn:Hr.
  - apply Forall_app. split; [exact Hw |].
    apply Forall_cons. split; [| apply Forall_nil_2].
    intros _. cbn. destruct (Z.ltb_spec status 400); [now cbv | assumption].
  - destruct (NextURL ctx) as [nextURL ?].
    apply Forall_app. split; [exact Hw |].
    apply Forall_cons. split; [| apply Forall_nil_2]. discriminate.
Qed.

(** An error recorded with a status of 400 or more is sent at that status,
    when the format has a serializer: only statuses below 400 are replaced. *)
Theorem error_status_from_400_is_kept h w ctx serializer e :
  responseSerializer (embedded h) (ResponseFormat ctx) = inl serializer ->
  Error ctx = Some e ->
  (400 <= Status ctx)%Z ->
  sendResponse h w ctx = w ++ [ErrorResponse serializer e (Status ctx)].
Proof.
  intros Hf He Hst.
  rewrite (sendResponse_error h w ctx serializer (Status ctx) e)
    by (rewrite (resolve_registered h ctx serializer Hf); now rewrite He).
  destruct (Z.ltb_spec (Status ctx) 400) as [Hlt | _]; [| reflexivity].
  exfalso. apply (Z.lt_irrefl 400). eapply Z.le_lt_trans; eassumption.
Qed.

(** Unfolds a handler down to the call of its operation. *)
Ltac to_the_operation :=
  unfold handleCreate, handleReadList, handleRead, handleUpdate, handleDelete,
    handleCreate_ctx, handleReadList_ctx, handleRead_ctx, handleUpdate_ctx,
    handleDelete_ctx, mbind, M_bind, mret, M_ret.

(** When the format of the request has a serializer and the operation
    returns no error, each handler writes one success response with the
    operation's result at the verb's status, 201 for create and 200 for the
    others, and leaves the store as the operation left it.  Read, read list,
    update and delete overwrite the context's error with the operation's;
    create sets it only when the operation returned one, so it needs the
    fresh context to carry none. *)
Theorem handlers_send_the_result_on_success h w r s serializer :
  responseSerializer (embedded h) (ResponseFormat (NewContext r)) = inl serializer ->
  (forall (createFunc : CreateFunc) data resource s',
      Decode (RequestBody r) = (data, None) ->
      Error (NewContext r) = None ->
      createFunc (NewContext r) data (Version (NewContext r)) s
        = Return ((resource, None), s') ->
      handleCreate h createFunc w r s =
        Return (w ++ [SuccessResponse serializer
                        (newSuccessResponse (ofResource resource)
                           (NextURL (SetStatus (SetResult (NewContext r)
                                       (ofResource resource)) StatusCreated)).1)
                        StatusCreated], s'))
  /\ (forall (readFunc : ReadListFunc) resources cursor s',
      readFunc (NewContext r) (Limit (NewContext r)) (Version (NewContext r)) s
        = Return ((resources, cursor, None), s') ->
      handleReadList h readFunc w r s =
        Return (w ++ [SuccessResponse serializer
                        (newSuccessResponse (Many resources)
                           (NextURL (SetStatus (SetError (SetCursor (SetResult
                                       (NewContext r) (Many resources)) cursor) None)
                                       StatusOK)).1)
                        StatusOK], s'))
  /\ (forall (readFunc : ReadFunc) resource s',
      readFunc (NewContext r) (ResourceId (NewContext r)) (Version (NewContext r)) s
        = Return ((resource, None), s') ->
      handleRead h readFunc w r s =
        Return (w ++ [SuccessResponse serializer
                        (newSuccessResponse (ofResource resource)
                           (NextURL (SetStatus (SetError (SetResult (NewContext r)
                                       (ofResource resource)) None) StatusOK)).1)
                        StatusOK], s'))
  /\ (forall (updateFunc : UpdateFunc) data resource s',
      Decode (RequestBody r) = (data, None) ->
      updateFunc (NewContext r) (ResourceId (NewContext r)) data
          (Version (NewContext r)) s = Return ((resource, None), s') ->
      handleUpdate h updateFunc w r s =
        Return (w ++ [SuccessResponse serializer
                        (newSuccessResponse (ofResource resource)
                           (NextURL (SetStatus (SetError (SetResult (NewContext r)
                                       (ofResource resource)) None) StatusOK)).1)
                        StatusOK], s'))
  /\ (forall (deleteFunc : ReadFunc) resource s',
      deleteFunc (NewContext r) (ResourceId (NewContext r)) (Version (NewContext r)) s
        = Return ((resource, None), s') ->
      handleDelete h deleteFunc w r s =
        Return (w ++ [SuccessResponse serializer
                        (newSuccessResponse (ofResource resource)
                           (NextURL (SetStatus (SetError (SetResult (NewContext r)
                                       (ofResource resource)) None) StatusOK)).1)
                        StatusOK], s')).
Proof.
  intros Hf.
  repeat match goal with |- _ /\ _ => split end.
  - intros createFunc data resource s' Hd He Hop.
    to_the_operation. rewrite Hd, Hop. do 2 f_equal.
    apply sendResponse_success.
    rewrite (resolve_registered h _ serializer) by exact Hf.
    cbn. now rewrite He.
  - intros readFunc resources cursor s' Hop.
    to_the_operation. rewrite Hop. do 2 f_equal.
    apply sendResponse_success. now rewrite (resolve_registered h _ serializer).
  - intros readFunc resource s' Hop.
    to_the_operation. rewrite Hop. do 2 f_equal.
    apply sendResponse_success. now rewrite (resolve_registered h _ serializer).
  - intros updateFunc data resource s' Hd Hop.
    to_the_operation. rewrite Hd, Hop. do 2 f_equal.
    apply sendResponse_success. now rewrite (resolve_registered h _ serializer).
  - intros deleteFunc resource s' Hop.
    to_the_operation. rewrite Hop. do 2 f_equal.
    apply sendResponse_success. now rewrite (resolve_registered h _ serializer).
Qed.


(** The format is looked up only after the operation has run: when the
    format of the request has no serializer, each handler still invokes its
    operation, the store is as the operation left it, and the response is
    the 501 of the fallback whatever the operation returned. *)
Theorem unsupported_format_still_runs_the_operation h w r s err :
  responseSerializer (embedded h) (ResponseFormat (NewContext r)) = inr err ->
  (forall (createFunc : CreateFunc) data result s',
      Decode (RequestBody r) = (data, None) ->
      createFunc (NewContext r) data (Version (NewContext r)) s = Return (result, s') ->
      handleCreate h createFunc w r s =
        Return (w ++ [ErrorResponse jsonSerializer err StatusNotImplemented], s'))
  /\ (forall (readFunc : ReadListFunc) result s',
      readFunc (NewContext r) (Limit (NewContext r)) (Version (NewContext r)) s
        = Return (result, s') ->
      handleReadList h readFunc w r s =
        Return (w ++ [ErrorResponse jsonSerializer err StatusNotImplemented], s'))
  /\ (forall (readFunc : ReadFunc) result s',
      readFunc (NewContext r) (ResourceId (NewContext r)) (Version (NewContext r)) s
        = Return (result, s') ->
      handleRead h readFunc w r s =
        Return (w ++ [ErrorResponse jsonSerializer err StatusNotImplemented], s'))
  /\ (forall (updateFunc : UpdateFunc) data result s',
      Decode (RequestBody r) = (data, None) ->
      updateFunc (NewContext r) (ResourceId (NewContext r)) data
          (Version (NewContext r)) s = Return (result, s') ->
      handleUpdate h updateFunc w r s =
        Return (w ++ [ErrorResponse jsonSerializer err StatusNotImplemented], s'))
  /\ (forall (deleteFunc : ReadFunc) result s',
      deleteFunc (NewContext r) (ResourceId (NewContext r)) (Version (NewContext r)) s
        = Return (result, s') ->
      handleDelete h deleteFunc w r s =
        Return (w ++ [ErrorResponse jsonSerializer err StatusNotImplemented], s')).
Proof.
  intros Hf.
  assert (Hsend : forall ctx,
             ResponseFormat ctx = ResponseFormat (NewContext r) ->
             sendResponse h w ctx
               = w ++ [ErrorResponse jsonSerializer err StatusNotImplemented]).
  { intros ctx Hfmt.
    rewrite (sendResponse_error h w ctx jsonSerializer StatusNotImplemented err);
      [reflexivity |].
    apply resolve_unsupported. now rewrite Hfmt. }
  repeat match goal with |- _ /\ _ => split end.
  - intros createFunc data [resource e] s' Hd Hop.
    to_the_operation. rewrite Hd, Hop. do 2 f_equal.
    apply Hsend. now destruct e.
  - intros readFunc [[resources cursor] e] s' Hop.
    to_the_operation. rewrite Hop. do 2 f_equal. now apply Hsend.
  - intros readFunc [resource e] s' Hop.
    to_the_operation. rewrite Hop. do 2 f_equal. now apply Hsend.
  - intros updateFunc data [resource e] s' Hd Hop.
    to_the_operation. rewrite Hd, Hop. do 2 f_equal. now apply Hsend.
  - intros deleteFunc [resource e] s' Hop.
    to_the_operation. rewrite Hop. do 2 f_equal. now apply Hsend.
Qed.

End HandlerRuns.

(** ** The proxy's rules and routes *)

Section ProxyMore.
Import rest rest.resourceHandlerProxy.
Context {RequestContext Resource Request St GoType : Type}.
Variables versionKey resourceIDKey : string.
Implicit Types (r : t RequestContext Resource Request St GoType)
  (hp : gmap positive (Rule GoType)) (rules : list positive).

(** The loop of [Rules] panics at the first nil pointer of the slice. *)
Lemma Rules_range_nil r rules : forall hp p,
  p ∈ rules -> hp !! p = None ->
  Rules_range r rules hp = Panic "invalid memory address or nil pointer dereference".
Proof.
  induction rules as [| rule rules' IH]; intros hp p Hp Hnil.
  - now apply elem_of_nil in Hp.
  - cbn [Rules_range]. unfold mbind, M_bind, setResourceType.
    destruct (hp !! rule) as [x |] eqn:Hx; [| reflexivity].
    apply elem_of_cons in Hp as [-> | Hp]; [congruence |].
    apply (IH _ p Hp).
    rewrite lookup_insert_ne; [exact Hnil | congruence].
Qed.

(** So a loop that returns ran on live pointers only. *)
Lemma Rules_range_live r rules hp hp' :
  Rules_range r rules hp = Return (tt, hp') ->
  forall p, p ∈ rules -> is_Some (hp !! p).
Proof.
  intros Hrun p Hp. destruct (hp !! p) as [x |] eqn:Hx; [eauto |].
  rewrite (Rules_range_nil r rules hp p Hp Hx) in Hrun. discriminate.
Qed.

(** [Rules] returns when its loop does, with the handler's slice. *)
Lemma Rules_inv r hp rules hp' :
  Rules r hp = Return (rules, hp') ->
  rules = rest.Rules (wrapped r)
  /\ Rules_range r (rest.Rules (wrapped r)) hp = Return (tt, hp').
Proof.
  unfold Rules, mbind, M_bind, mret, M_ret.
  destruct (Rules_range r (rest.Rules (wrapped r)) hp) as [[[] hp1] | msg];
    [| discriminate].
  now intros [= <- <-].
Qed.

(** [Rules] fails on a slice that holds a nil pointer: the assignment
    through it panics, whatever [EmptyResource] is. *)
Theorem Rules_panics_on_a_nil_rule r hp p :
  p ∈ rest.Rules (wrapped r) ->
  hp !! p = None ->
  Rules r hp = Panic "invalid memory address or nil pointer dereference".
Proof.
  intros Hp Hnil. unfold Rules.
  apply bind_Panic. exact (Rules_range_nil r _ hp p Hp Hnil).
Qed.

(** [Rules] writes nothing but type tags: when it returns, it returns the
    handler's own slice, every rule of the heap is still there with its
    field as before, no rule has appeared, and a rule that is not in the
    slice is as it was. *)
Theorem Rules_changes_only_the_type_tags r hp rules hp' :
  Rules r hp = Return (rules, hp') ->
  rules = rest.Rules (wrapped r)
  /\ (forall p x, hp !! p = Some x ->
      exists x', hp' !! p = Some x' /\ Field x' = Field x)
  /\ (forall p, hp !! p = None -> hp' !! p = None)
  /\ (forall p, p ∉ rules -> hp' !! p = hp !! p).
Proof.
  intros Hrun. apply Rules_inv in Hrun as [-> Hrun].
  destruct (Rules_range_stamps r _ hp (Rules_range_live r _ hp hp' Hrun))
    as (hp1 & Hrun1 & Hin & Hout).
  rewrite Hrun in Hrun1. injection Hrun1 as <-.
  split; [reflexivity |]. split; [| split]; [| | exact Hout].
  - intros p x Hx. destruct (decide (p ∈ rest.Rules (wrapped r))) as [Hp | Hp].
    + destruct (Hin p Hp) as (x0 & Hx0 & Hx'). rewrite Hx in Hx0. injection Hx0 as <-.
      eexists. split; [exact Hx' | reflexivity].
    + exists x. split; [| reflexivity]. now rewrite (Hout p Hp).
  - intros p Hnil. destruct (decide (p ∈ rest.Rules (wrapped r))) as [Hp | Hp].
    + destruct (Hin p Hp) as (x0 & Hx0 & _). congruence.
    + now rewrite (Hout p Hp).
Qed.


(** Appending to a string that starts with a character. *)
Lemma app_String a (s u : string) : String a s +:+ u = String a (s +:+ u).
Proof. reflexivity. Qed.

Lemma app_assoc_string (s u v : string) : (s +:+ u) +:+ v = s +:+ (u +:+ v).
Proof.
  induction s as [| a s IH]; [reflexivity |].
  rewrite !app_String. now rewrite IH.
Qed.

Lemma app_length_string (s u : string) :
  String.length (s +:+ u) = String.length s + String.length u.
Proof.
  induction s as [| a s IH]; [reflexivity |].
  rewrite app_String. cbn [String.length]. now rewrite IH.
Qed.

(** A common ending can be cut off. *)
Lemma app_inj_r (u : string) : forall s1 s2 : string, s1 +:+ u = s2 +:+ u -> s1 = s2.
Proof.
  induction s1 as [| a s1 IH]; intros [| b s2] Heq.
  - reflexivity.
  - apply (f_equal String.length) in Heq.
    change ("" +:+ u) with u in Heq.
    rewrite app_String in Heq. cbn [String.length] in Heq.
    rewrite app_length_string in Heq. lia.
  - apply (f_equal String.length) in Heq.
    change ("" +:+ u) with u in Heq.
    rewrite app_String in Heq. cbn [String.length] in Heq.
    rewrite app_length_string in Heq. lia.
  - rewrite !app_String in Heq. injection Heq as -> Heq.
    now rewrite (IH s2 Heq).
Qed.

(** Both default routes determine the name they were built from. *)
Lemma pluralURI_inj (n1 n2 : string) :
  pluralURI versionKey n1 = pluralURI versionKey n2 -> n1 = n2.
Proof.
  unfold pluralURI. intros Heq.
  now do 3 apply String.app_inj in Heq.
Qed.

Lemma singularURI_inj (n1 n2 : string) :
  singularURI versionKey resourceIDKey n1 = singularURI versionKey resourceIDKey n2 ->
  n1 = n2.
Proof.
  unfold singularURI. intros Heq.
  do 3 apply String.app_inj in Heq.
  exact (app_inj_r _ _ _ Heq).
Qed.

(** The singular route is the plural route with the id placeholder after. *)
Lemma singularURI_pluralURI (name : string) :
  singularURI versionKey resourceIDKey name
  = pluralURI versionKey name +:+ "/{" +:+ resourceIDKey +:+ "}".
Proof. unfold singularURI, pluralURI. now rewrite !app_assoc_string. Qed.

(** Default routes do not collide: when two named handlers leave a URI
    unset and the proxy gives both the same route for it, they have the same
    resource name. *)
Theorem default_routes_tell_resources_apart r1 r2 :
  rest.ResourceName (wrapped r1) <> "" ->
  rest.ResourceName (wrapped r2) <> "" ->
  (rest.CreateURI (wrapped r1) = "" -> rest.CreateURI (wrapped r2) = "" ->
   CreateURI versionKey r1 = CreateURI versionKey r2 ->
   rest.ResourceName (wrapped r1) = rest.ResourceName (wrapped r2))
  /\ (rest.ReadURI (wrapped r1) = "" -> rest.ReadURI (wrapped r2) = "" ->
      ReadURI versionKey resourceIDKey r1 = ReadURI versionKey resourceIDKey r2 ->
      rest.ResourceName (wrapped r1) = rest.ResourceName (wrapped r2))
  /\ (rest.ReadListURI (wrapped r1) = "" -> rest.ReadListURI (wrapped r2) = "" ->
      ReadListURI versionKey r1 = ReadListURI versionKey r2 ->
      rest.ResourceName (wrapped r1) = rest.ResourceName (wrapped r2))
  /\ (rest.UpdateURI (wrapped r1) = "" -> rest.UpdateURI (wrapped r2) = "" ->
      UpdateURI versionKey resourceIDKey r1 = UpdateURI versionKey resourceIDKey r2 ->
      rest.ResourceName (wrapped r1) = rest.ResourceName (wrapped r2))
  /\ (rest.DeleteURI (wrapped r1) = "" -> rest.DeleteURI (wrapped r2) = "" ->
      DeleteURI versionKey resourceIDKey r1 = DeleteURI versionKey resourceIDKey r2 ->
      rest.ResourceName (wrapped r1) = rest.ResourceName (wrapped r2)).
Proof.
  intros Hn1 Hn2.
  unfold CreateURI, ReadURI, ReadListURI, UpdateURI, DeleteURI.
  rewrite (ResourceName_named r1 Hn1), (ResourceName_named r2 Hn2).
  repeat match goal with |- _ /\ _ => split end;
    intros -> ->; cbn [String.eqb]; intros Heq;
    first [apply pluralURI_inj; congruence | apply singularURI_inj; congruence].
Qed.

(** For a named handler that sets no URI, create and read list share one
    route, and read, update and delete share the route that extends it by
    the id placeholder. *)
Theorem item_routes_extend_the_collection_route r :
  rest.ResourceName (wrapped r) <> "" ->
  rest.CreateURI (wrapped r) = "" ->
  rest.ReadURI (wrapped r) = "" ->
  rest.ReadListURI (wrapped r) = "" ->
  rest.UpdateURI (wrapped r) = "" ->
  rest.DeleteURI (wrapped r) = "" ->
  exists collection,
    CreateURI versionKey r = Return collection
    /\ ReadListURI versionKey r = Return collection
    /\ ReadURI versionKey resourceIDKey r
       = Return (collection +:+ "/{" +:+ resourceIDKey +:+ "}")
    /\ UpdateURI versionKey resourceIDKey r
       = Return (collection +:+ "/{" +:+ resourceIDKey +:+ "}")
    /\ DeleteURI versionKey resourceIDKey r
       = Return (collection +:+ "/{" +:+ resourceIDKey +:+ "}").
Proof.
  intros Hn Hc Hr Hl Hu Hd.
  exists (pluralURI versionKey (rest.ResourceName (wrapped r))).
  unfold CreateURI, ReadURI, ReadListURI, UpdateURI, DeleteURI.
  rewrite (ResourceName_named r Hn), Hc, Hr, Hl, Hu, Hd. cbn [String.eqb].
  rewrite singularURI_pluralURI. repeat split.
Qed.

End ProxyMore.

(** ** These properties on concrete requests and handlers *)

Section MoreRuns.
Import context example.

(** A read asked for as [xml]: one response, by the JSON serializer. *)
Lemma handlers_answer_once_witness :
  server.handleRead h findingRead [] (get "xml") 0
    = Return ([server.ErrorResponse "json" unsupported StatusNotImplemented], 1)
  /\ exists x : server.Write string string,
       [server.ErrorResponse "json" unsupported StatusNotImplemented] = [] ++ [x]
       /\ server.writeSerializer x = "json".
Proof.
  split; [reflexivity |].
  destruct (handlers_answer_once_in_the_request_s_format (X := externals)
              h [] (get "xml") 0
              [server.ErrorResponse "json" unsupported StatusNotImplemented] 1)
    as (_ & _ & Hread & _).
  exact (Hread findingRead eq_refl).
Defined.

(** A create whose operation fails: an error response at 500 or 501. *)
Lemma handlers_send_one_of_four_statuses_witness :
  exists x : server.Write string string,
    [server.ErrorResponse "json" boom 500] = [] ++ [x]
    /\ ((server.isErrorResponse x = true
         /\ (server.writeStatus x = StatusInternalServerError
             \/ server.writeStatus x = StatusNotImplemented))
        \/ (server.isErrorResponse x = false
            /\ (server.writeStatus x = StatusOK \/ server.writeStatus x = StatusCreated))).
Proof.
  destruct (handlers_send_one_of_four_statuses (X := externals)
              h [] (post object "json") 0 [server.ErrorResponse "json" boom 500] 1)
    as (Hcreate & _).
  exact (Hcreate failingCreate eq_refl).
Defined.

(** After an error at 500, a failed context adds another error at 500. *)
Lemma sendResponse_keeps_error_statuses_witness :
  Forall (fun x => server.isErrorResponse x = true -> (400 <= server.writeStatus x)%Z)
    (server.sendResponse h [server.ErrorResponse "json" boom 500] failed).
Proof.
  apply (sendResponse_keeps_error_statuses (X := externals)).
  apply Forall_cons. split; [| apply Forall_nil_2].
  intros _. cbn. discriminate.
Defined.

(** An error recorded with status 404 is sent at 404. *)
Lemma error_status_from_400_is_kept_witness :
  server.sendResponse h []
    (mkContext "1" 0 "" "7" "json" Nil (Some boom) 404 None)
  = [server.ErrorResponse "json" boom 404].
Proof.
  apply (error_status_from_400_is_kept (X := externals) h []
           (mkContext "1" 0 "" "7" "json" Nil (Some boom) 404 None) "json" boom);
    [reflexivity | reflexivity | cbn; discriminate].
Defined.

(** A read that finds its widget: one success response at 200. *)
Lemma handlers_send_the_result_on_success_witness :
  server.handleRead h findingRead [] (get "json") 0
  = Return ([server.SuccessResponse "json"
               (server.newSuccessResponse (One "widget") "") StatusOK], 1).
Proof.
  destruct (handlers_send_the_result_on_success (X := externals)
              h [] (get "json") 0 "json" eq_refl)
    as (_ & _ & Hread & _).
  exact (Hread findingRead (Some "widget") 1 eq_refl).
Defined.


(** A create asked for as [xml]: the operation has run once, and the
    response is the 501. *)
Lemma unsupported_format_still_runs_the_operation_witness :
  server.handleCreate h failingCreate [] (post object "xml") 0
  = Return ([server.ErrorResponse "json" unsupported StatusNotImplemented], 1).
Proof.
  destruct (unsupported_format_still_runs_the_operation (X := externals)
              h [] (post object "xml") 0 unsupported eq_refl)
    as (Hcreate & _).
  exact (Hcreate failingCreate _ (None, Some boom) 1 eq_refl eq_refl).
Defined.

(** A slice whose second pointer is nil. *)
Lemma Rules_panics_on_a_nil_rule_witness :
  rest.resourceHandlerProxy.Rules (rest.resourceHandlerProxy.wrap dangling) rules
  = Panic "invalid memory address or nil pointer dereference".
Proof.
  apply (Rules_panics_on_a_nil_rule (rest.resourceHandlerProxy.wrap dangling) rules
           3%positive); [| reflexivity].
  right. left.
Defined.

(** The first rule of the widgets after [Rules]: still there, with its
    field. *)
Lemma Rules_changes_only_the_type_tags_witness :
  exists x',
    (<[2%positive := {| rest.Field := "Price"; rest.resourceType := Some "Widget" |}]>
       {[1%positive := {| rest.Field := "Name"; rest.resourceType := Some "Widget" |}]}
     : gmap positive (rest.Rule string)) !! 1%positive = Some x'
    /\ rest.Field x' = "Name".
Proof.
  exact (proj1 (proj2 (Rules_changes_only_the_type_tags
                         (rest.resourceHandlerProxy.wrap widgets) rules
                         [1; 2]%positive _ eq_refl))
           1%positive {| rest.Field := "Name"; rest.resourceType := None |} eq_refl).
Defined.


(** Two handlers that leave the create URI unset and get the same route. *)
Lemma default_routes_tell_resources_apart_witness :
  rest.ResourceName widgets = rest.ResourceName dangling.
Proof.
  destruct (default_routes_tell_resources_apart "version" "resource_id"
              (rest.resourceHandlerProxy.wrap widgets)
              (rest.resourceHandlerProxy.wrap dangling))
    as (Hcreate & _); [discriminate | discriminate |].
  apply Hcreate; reflexivity.
Defined.

(** The routes of a handler that sets none. *)
Lemma item_routes_extend_the_collection_route_witness :
  exists collection,
    rest.resourceHandlerProxy.CreateURI "version" (rest.resourceHandlerProxy.wrap dangling)
      = Return collection
    /\ rest.resourceHandlerProxy.ReadListURI "version"
         (rest.resourceHandlerProxy.wrap dangling) = Return collection
    /\ rest.resourceHandlerProxy.ReadURI "version" "resource_id"
         (rest.resourceHandlerProxy.wrap dangling)
       = Return (collection +:+ "/{" +:+ "resource_id" +:+ "}")
    /\ rest.resourceHandlerProxy.UpdateURI "version" "resource_id"
         (rest.resourceHandlerProxy.wrap dangling)
       = Return (collection +:+ "/{" +:+ "resource_id" +:+ "}")
    /\ rest.resourceHandlerProxy.DeleteURI "version" "resource_id"
         (rest.resourceHandlerProxy.wrap dangling)
       = Return (collection +:+ "/{" +:+ "resource_id" +:+ "}").
Proof.
  apply (item_routes_extend_the_collection_route "version" "resource_id"
           (rest.resourceHandlerProxy.wrap dangling));
    [discriminate | reflexivity..].
Defined.

End MoreRuns.
